(** * PyREx: IREX antenna front end, trigger and event kernel

    A shallow embedding of [pyrex/custom/irex/antenna.py],
    [pyrex/internal_functions.py] and [pyrex/kernel.py].

    Waveform samples are numpy floats in the source.  The antenna code only
    adds, subtracts, multiplies, negates and compares them, so the embedding
    is generic in the sample type (class [Scalar]) and is run on [Z] for
    concrete waveforms and on [R] for the Hilbert envelope.  The kernel, the
    dipole and the layouts also divide, take square roots and call the
    mathematical library; they are generic in those operations too (classes
    [Floating] and [Libm]) and are run on binary64, the numbers the code
    computes with.  Python exceptions are the [Raise] outcomes of
    [outcome]; loops are written with fuel and shown never to exhaust
    it. *)

From Stdlib Require Import PrimFloat.
From Stdlib Require FloatOps.
From Stdlib Require Import String Ascii ZArith List Bool Arith Lia.
From Stdlib Require Import Reals Lra.
Import ListNotations.

Open Scope string_scope.
Open Scope list_scope.
Open Scope nat_scope.

(* ================================================================== *)
(** ** Python strings: the [in] operator *)

(** [str_in needle hay] is Python's [needle in hay] on strings. *)
Fixpoint str_in (needle hay : string) : bool :=
  match hay with
  | EmptyString => String.prefix needle EmptyString
  | String _ rest => String.prefix needle hay || str_in needle rest
  end.

(* ================================================================== *)
(** ** Outcomes of Python code *)

Inductive exn : Type :=
| ValueError (msg : string)
| ModuleNotFoundError (msg : string)
| KeyError (key : string)
| IndexError.

(** The message an exception carries ([str(e)] for the errors raised here). *)
Definition exn_message (e : exn) : string :=
  match e with
  | ValueError m => m
  | ModuleNotFoundError m => m
  | KeyError k => k
  | IndexError => "index out of range"
  end.

Inductive outcome (A : Type) : Type :=
| Ok (a : A)
| Raise (e : exn)
| OutOfFuel.

Arguments Ok {A} a.
Arguments Raise {A} e.
Arguments OutOfFuel {A}.

Definition bind {A B : Type} (m : outcome A) (k : A -> outcome B) : outcome B :=
  match m with
  | Ok a => k a
  | Raise e => Raise e
  | OutOfFuel => OutOfFuel
  end.

Notation "x <- m ;; k" := (bind m (fun x => k))
  (at level 61, m at next level, right associativity).

(** [l[i]] for a non-negative index: [IndexError] out of range. *)
Definition index {A : Type} (l : list A) (i : nat) : outcome A :=
  match nth_error l i with
  | Some a => Ok a
  | None => Raise IndexError
  end.

(* ================================================================== *)
(** ** Samples and signals *)

(** The arithmetic the antenna code applies to samples. [s_gtb a b] is
    [a > b]. *)
Class Scalar (num : Type) : Type := {
  s_add : num -> num -> num;
  s_sub : num -> num -> num;
  s_mul : num -> num -> num;
  s_neg : num -> num;
  s_gtb : num -> num -> bool
}.

#[export] Instance Z_Scalar : Scalar Z := {
  s_add := Z.add;
  s_sub := Z.sub;
  s_mul := Z.mul;
  s_neg := Z.opp;
  s_gtb := Z.gtb
}.

Definition Rgtb (a b : R) : bool := if Rlt_dec b a then true else false.

#[export] Instance R_Scalar : Scalar R := {
  s_add := Rplus;
  s_sub := Rminus;
  s_mul := Rmult;
  s_neg := Ropp;
  s_gtb := Rgtb
}.
(* ================================================================== *)
(** ** Floating-point numbers

    What the kernel, the dipole and the layouts do to numbers beyond the
    operations of [Scalar], and what they take from the mathematical
    library. *)

Class Floating (num : Type) : Type := {
  (** the float of an integer [n] *)
  of_int : Z -> num;
  (** [a / b] on numpy numbers *)
  f_div : num -> num -> num;
  (** [np.sqrt(a)] *)
  f_sqrt : num -> num;
  (** [a == b] *)
  f_eqb : num -> num -> bool
}.

Class Libm (num : Type) : Type := {
  np_pi : num;
  np_arccos : num -> num;
  np_cos : num -> num;
  np_sin : num -> num
}.

(** *** binary64

    The numbers of Python and numpy: IEEE 754 double precision, rounded to
    nearest, with infinities and not-a-number; a comparison with
    not-a-number is false. *)

#[export] Instance Float_Scalar : Scalar float := {
  s_add := PrimFloat.add;
  s_sub := PrimFloat.sub;
  s_mul := PrimFloat.mul;
  s_neg := PrimFloat.opp;
  s_gtb := fun a b => PrimFloat.ltb b a
}.

(** The float nearest to the integer [n]; beyond the largest float, where
    Python raises [OverflowError], it is infinite. *)
Definition float_of_int (n : Z) : float :=
  FloatOps.SF2Prim
    (SpecFloat.binary_normalize FloatOps.prec FloatOps.emax n 0 false).

#[export] Instance Float_Floating : Floating float := {
  of_int := float_of_int;
  f_div := PrimFloat.div;
  f_sqrt := PrimFloat.sqrt;
  f_eqb := PrimFloat.eqb
}.

(** *** Exact real numbers *)

Definition Reqb (a b : R) : bool := if Req_dec_T a b then true else false.

#[export] Instance R_Floating : Floating R := {
  of_int := IZR;
  f_div := Rdiv;
  f_sqrt := sqrt;
  f_eqb := Reqb
}.

#[export] Instance R_Libm : Libm R := {
  np_pi := PI;
  np_arccos := acos;
  np_cos := cos;
  np_sin := sin
}.


(** [Signal.ValueTypes] of [pyrex.signals]. *)
Inductive ValueTypes : Type := undefined | voltage | field | power.

(** A [Signal]: time samples, amplitude samples and the value-type tag. *)
Record Signal (num : Type) : Type := mkSignal {
  times : list num;
  values : list num;
  value_type : ValueTypes
}.

Arguments mkSignal {num} _ _ _.
Arguments times {num} _.
Arguments values {num} _.
Arguments value_type {num} _.

(* ================================================================== *)
(** ** What the antenna module takes from the rest of PyREx

    [pyrex.signals], [pyrex.antenna], [pyrex.detector] and the [frontends]
    package are used by [antenna.py] and are not part of it; what they
    compute is taken as given. *)

Class Frontends (num : Type) : Type := {
  (** the tag [Signal(times, values)] gives when none is passed *)
  default_value_type : ValueTypes;
  (** the [Signal.envelope] property *)
  envelope : Signal num -> list num;
  (** [frontends.basic_envelope_model] *)
  basic_envelope_model : Signal num -> Signal num;
  (** [pyspice.__available__] and [pyspice.__modulenotfound__] *)
  pyspice_available : bool;
  pyspice_modulenotfound : string;
  (** [frontends.spice_circuits], in the order [items()] lists it *)
  Circuit : Type;
  spice_circuits : list (string * Circuit);
  (** the [Signal.dt] property *)
  signal_dt : Signal num -> num;
  (** [analysis.output] of [simulator.transient(step_time, end_time)] for
      the simulator of a circuit fed with a [SpiceSignal] *)
  transient_output : Circuit -> Signal num -> num -> num -> list num;
  (** [Signal.with_times] and [Signal.__add__] *)
  with_times : Signal num -> list num -> Signal num;
  signal_add : Signal num -> Signal num -> Signal num;
  (** the antenna's noise generator: [Antenna.make_noise] *)
  NoiseState : Type;
  make_noise : NoiseState -> list num -> Signal num * NoiseState;
  (** [Antenna.full_waveform] *)
  antenna_full_waveform :
    NoiseState -> list (Signal num) -> list num -> Signal num * NoiseState;
  (** the signal [Antenna.receive] stores for a pulse arriving from
      [origin] with the given polarization *)
  antenna_response : Signal num -> list num -> list num -> Signal num
}.

(** [Signal(times, values)]: the constructor called without a tag. *)
Definition Signal_ {num : Type} {FE : Frontends num}
  (times values : list num) : Signal num :=
  mkSignal times values default_value_type.

(** What the spice branch of [make_envelope] does to the simulator, in
    order. *)
Inductive SpiceEvent {num : Type} {FE : Frontends num} : Type :=
| SpiceSignalBuilt (copy : Signal num)
| SimulatorBuilt (circuit : Circuit)
| TransientRun (circuit : Circuit) (step_time end_time : num).

(* ================================================================== *)
(** ** [IREXAntennaSystem] *)

Section Antenna.
Context {num : Type} {SC : Scalar num} {FE : Frontends num}.

(** The attributes of an [IREXAntennaSystem], with the raw-signal list of
    its antenna, the noise generator of its antenna and the waveform cache
    [_all_waveforms]. *)
Record IREXAntennaSystem : Type := mkSystem {
  name : string;
  position : list num;
  amplification : num;
  amplifier_clipping : num;
  trigger_threshold : num;
  time_over_threshold : num;
  envelope_method : string;
  antenna_signals : list (Signal num);
  antenna_noise : NoiseState;
  _all_waveforms : list (Signal num)
}.

Definition set_antenna_signals (self : IREXAntennaSystem)
  (l : list (Signal num)) : IREXAntennaSystem :=
  mkSystem (name self) (position self) (amplification self)
    (amplifier_clipping self) (trigger_threshold self)
    (time_over_threshold self) (envelope_method self)
    l (antenna_noise self) (_all_waveforms self).

Definition set_antenna_noise (self : IREXAntennaSystem)
  (n : NoiseState) : IREXAntennaSystem :=
  mkSystem (name self) (position self) (amplification self)
    (amplifier_clipping self) (trigger_threshold self)
    (time_over_threshold self) (envelope_method self)
    (antenna_signals self) n (_all_waveforms self).

Definition set_all_waveforms (self : IREXAntennaSystem)
  (l : list (Signal num)) : IREXAntennaSystem :=
  mkSystem (name self) (position self) (amplification self)
    (amplifier_clipping self) (trigger_threshold self)
    (time_over_threshold self) (envelope_method self)
    (antenna_signals self) (antenna_noise self) l.

(** [for key, val in spice_circuits.items(): if key in method: ... break] *)
Fixpoint match_circuit_key (circuits : list (string * Circuit))
  (method : string) : option Circuit :=
  match circuits with
  | [] => None
  | (key, val) :: rest =>
      if str_in key method then Some val else match_circuit_key rest method
  end.

(** [spice_circuits[key]] *)
Fixpoint circuit_getitem (circuits : list (string * Circuit))
  (key : string) : outcome Circuit :=
  match circuits with
  | [] => Raise (KeyError key)
  | (k, val) :: rest =>
      if String.eqb k key then Ok val else circuit_getitem rest key
  end.

(** The circuit the spice branch settles on: the registry keys first, then
    the manual names; [Ok None] when nothing matches. *)
Definition select_circuit (method : string) : outcome (option Circuit) :=
  match match_circuit_key spice_circuits method with
  | Some c => Ok (Some c)
  | None =>
      if str_in "simple" method then
        c <- circuit_getitem spice_circuits "basic" ;; Ok (Some c)
      else if str_in "log amp" method || str_in "logarithmic amp" method then
        c <- circuit_getitem spice_circuits "logamp" ;; Ok (Some c)
      else if str_in "rectifier" method then
        c <- circuit_getitem spice_circuits "bridge" ;; Ok (Some c)
      else Ok None
  end.

(** [make_envelope]: the simulator events of the call, in order, and its
    outcome. *)
Definition make_envelope (self : IREXAntennaSystem) (signal : Signal num)
  : list SpiceEvent * outcome (Signal num) :=
  let method := envelope_method self in
  if str_in "hilbert" method then
    ([], Ok (mkSignal (times signal) (envelope signal) (value_type signal)))
  else if str_in "analytic" method then
    if str_in "basic" method || String.eqb method "analytic" then
      ([], Ok (basic_envelope_model signal))
    else
      ([], Raise (ValueError ("Only basic envelope circuit is modeled " ++
                              "analytically")))
  else if str_in "spice" method then
    if negb pyspice_available then
      ([], Raise (ModuleNotFoundError pyspice_modulenotfound))
    else if String.eqb method "spice" then
      ([], Raise (ValueError ("Type of spice circuit to use must be " ++
                              "specified")))
    else
      match times signal with
      | [] => ([], Raise IndexError)
      | t0 :: _ =>
          let copy :=
            Signal_ (map (fun t => s_sub t t0) (times signal))
                    (values signal) in
          let built := [SpiceSignalBuilt copy] in
          match select_circuit method with
          | Raise e => (built, Raise e)
          | OutOfFuel => (built, OutOfFuel)
          | Ok None =>
              (built, Raise (ValueError ("Circuit '" ++ method ++
                                         "' not implemented")))
          | Ok (Some circuit) =>
              let step_time := signal_dt signal in
              let end_time := last (times copy) t0 in
              (built ++ [SimulatorBuilt circuit;
                         TransientRun circuit step_time end_time],
               Ok (mkSignal (times signal)
                     (transient_output circuit copy step_time end_time)
                     (value_type signal)))
          end
      end
  else
    ([], Raise (ValueError ("No envelope method matching '" ++ method ++
                            "'"))).

(** [np.clip(a, a_min, a_max)], which numpy computes as
    [minimum(a_max, maximum(a, a_min))] on every sample. *)
Definition np_maximum (a b : num) : num := if s_gtb b a then b else a.
Definition np_minimum (a b : num) : num := if s_gtb a b then b else a.
Definition np_clip (a : list num) (a_min a_max : num) : list num :=
  map (fun v => np_minimum a_max (np_maximum v a_min)) a.

(** The samples [front_end] hands to the envelope stage. *)
Definition amplified_values (self : IREXAntennaSystem) (signal : Signal num)
  : list num :=
  np_clip (map (fun v => s_mul v (amplification self)) (values signal))
          (s_neg (amplifier_clipping self)) (amplifier_clipping self).

Definition front_end (self : IREXAntennaSystem) (signal : Signal num)
  : list SpiceEvent * outcome (Signal num) :=
  let copy := Signal_ (times signal) (amplified_values self signal) in
  make_envelope self copy.

(** [all_waveforms]: the [while] loop, then the cache it returns.  Each
    round reads the first raw signal the cache does not cover yet. *)
Fixpoint all_waveforms_loop (fuel : nat) (self : IREXAntennaSystem)
  : IREXAntennaSystem * outcome unit :=
  match fuel with
  | O => (self, OutOfFuel)
  | S fuel' =>
      if length (_all_waveforms self) <? length (antenna_signals self) then
        match index (antenna_signals self) (length (_all_waveforms self)) with
        | Ok signal =>
            let t := times signal in
            match t with
            | [] => (self, Raise IndexError)
            | t0 :: t1 =>
                let t_last := last t t0 in
                let long_times :=
                  map (fun x => s_add (s_sub x t_last) t0) t ++ t1 in
                let long_signal := with_times signal long_times in
                let (long_noise, noise') :=
                  make_noise (antenna_noise self) long_times in
                let self := set_antenna_noise self noise' in
                match snd (front_end self (signal_add long_signal long_noise))
                with
                | Ok long_waveform =>
                    all_waveforms_loop fuel'
                      (set_all_waveforms self
                         (_all_waveforms self ++ [with_times long_waveform t]))
                | Raise e => (self, Raise e)
                | OutOfFuel => (self, OutOfFuel)
                end
            end
        | Raise e => (self, Raise e)
        | OutOfFuel => (self, OutOfFuel)
        end
      else (self, Ok tt)
  end.

Definition all_waveforms (self : IREXAntennaSystem)
  : IREXAntennaSystem * outcome (list (Signal num)) :=
  let (self', r) :=
    all_waveforms_loop (S (length (antenna_signals self))) self in
  (self', _ <- r ;; Ok (_all_waveforms self')).

Definition full_waveform (self : IREXAntennaSystem) (times : list num)
  : IREXAntennaSystem * outcome (Signal num) :=
  match times with
  | [] => (self, Raise IndexError)
  | t0 :: t1 =>
      let t_last := last times t0 in
      let long_times :=
        map (fun x => s_add (s_sub x t_last) t0) times ++ t1 in
      let (preprocessed, noise') :=
        antenna_full_waveform (antenna_noise self) (antenna_signals self)
                              long_times in
      let self := set_antenna_noise self noise' in
      (self,
       long_waveform <- snd (front_end self preprocessed) ;;
       Ok (with_times long_waveform times))
  end.

(** [while i<imax-1 and signal.values[i]>self.trigger_threshold: i += 1];
    the result is the value of [i] when the loop exits. *)
Fixpoint trigger_run (self : IREXAntennaSystem) (signal : Signal num)
  (imax fuel i : nat) : outcome nat :=
  match fuel with
  | O => OutOfFuel
  | S fuel' =>
      if i <? imax - 1 then
        v <- index (values signal) i ;;
        if s_gtb v (trigger_threshold self)
        then trigger_run self signal imax fuel' (S i)
        else Ok i
      else Ok i
  end.

(** The outer [while i<imax] loop of [trigger], entered with the given
    [i]. *)
Fixpoint trigger_scan (self : IREXAntennaSystem) (signal : Signal num)
  (imax fuel i : nat) : outcome bool :=
  match fuel with
  | O => OutOfFuel
  | S fuel' =>
      if i <? imax then
        let j := i in
        i <- trigger_run self signal imax imax i ;;
        if negb (i =? j) then
          ti <- index (times signal) i ;;
          tj <- index (times signal) j ;;
          let time := s_sub ti tj in
          if s_gtb time (time_over_threshold self) then Ok true
          else trigger_scan self signal imax fuel' (S i)
        else trigger_scan self signal imax fuel' (S i)
      else Ok false
  end.

Definition trigger (self : IREXAntennaSystem) (signal : Signal num)
  : outcome bool :=
  let imax := length (times signal) in
  trigger_scan self signal imax (S imax) 0.

(** *** The rest of an antenna system's life

    [AntennaSystem] and [Antenna] are not part of [antenna.py]; these three
    follow the description of the waveform cache and of the antenna's
    receive operation. *)

(** Modelled from the spec: the constructor of the base class
    [AntennaSystem], which is not among the sources; a new system has an
    empty raw-signal list and an empty waveform cache. *)
Definition new_system (name : string) (position : list num)
  (trigger_threshold time_over_threshold amplification amplifier_clipping : num)
  (envelope_method : string) (noise : NoiseState) : IREXAntennaSystem :=
  mkSystem name position amplification amplifier_clipping
    trigger_threshold time_over_threshold envelope_method [] noise [].

(** Modelled from the spec: [AntennaSystem.receive], which is not among the
    sources; it appends one raw signal to the antenna's list. *)
Definition receive (self : IREXAntennaSystem) (signal : Signal num)
  (origin polarization : list num) : IREXAntennaSystem :=
  set_antenna_signals self
    (antenna_signals self ++ [antenna_response signal origin polarization]).

(** Modelled from the spec: [AntennaSystem.clear], which is not among the
    sources; the explicit clear empties the raw-signal list and the cache
    kept against it. *)
Definition clear (self : IREXAntennaSystem) : IREXAntennaSystem :=
  set_all_waveforms (set_antenna_signals self []) [].

(** One operation on a live antenna system. *)
Inductive step : IREXAntennaSystem -> IREXAntennaSystem -> Prop :=
| step_receive self signal origin polarization :
    step self (receive self signal origin polarization)
| step_all_waveforms self :
    step self (fst (all_waveforms self))
| step_full_waveform self times :
    step self (fst (full_waveform self times))
| step_clear self :
    step self (clear self).

(** The states an antenna system goes through from its construction. *)
Inductive reachable : IREXAntennaSystem -> Prop :=
| reach_new name position thr tot amp clip method noise :
    reachable (new_system name position thr tot amp clip method noise)
| reach_step self self' :
    reachable self -> step self self' -> reachable self'.

End Antenna.

Arguments IREXAntennaSystem num {_}.

(* ================================================================== *)
(** ** [pyrex.internal_functions] and the vector arithmetic of the kernel

    Vectors are numpy arrays of floats.  The vectors the kernel combines
    have the same number of entries. *)

Section Vectors.
Context {num : Type} {SC : Scalar num} {FL : Floating num}.

(** [np.vdot(a, b)]: the products are added up from the left, starting
    from 0. *)
Definition vdot (a b : list num) : num :=
  fold_left (fun acc xy => s_add acc (s_mul (fst xy) (snd xy)))
            (combine a b) (of_int 0).

(** [c * v] for a scalar [c]. *)
Definition vscale (c : num) (v : list num) : list num := map (s_mul c) v.

(** [a - b], entry by entry. *)
Fixpoint vsub (a b : list num) : list num :=
  match a, b with
  | x :: a', y :: b' => s_sub x y :: vsub a' b'
  | _, _ => []
  end.

(** [np.linalg.norm(v)] *)
Definition norm (v : list num) : num := f_sqrt (vdot v v).

Definition normalize (vector : list num) : list num :=
  let v := vector in
  let mag := norm v in
  if f_eqb mag (of_int 0) then v
  else map (fun x => f_div x mag) v.

(** [np.linspace(start, stop, num, endpoint=False)] *)
Definition linspace (start stop : num) (n : nat) : list num :=
  let div := of_int (Z.of_nat n) in
  let delta := s_sub stop start in
  let step := f_div delta div in
  map (fun i =>
         let y := of_int (Z.of_nat i) in
         let y := if f_eqb step (of_int 0)
                  then s_mul (f_div y div) delta
                  else s_mul y step in
         s_add y start)
      (seq 0 n).

(** The literal [n]e-9: the quotient of two integers that are floats is
    rounded as the literal is. *)
Definition nano (n : Z) : num := f_div (of_int n) (of_int 1000000000).

End Vectors.

(* ================================================================== *)
(** ** [EventKernel] *)

(** The particle a generator creates. *)
Record Particle (num : Type) : Type := mkParticle {
  vertex : list num;
  direction : list num;
  energy : num
}.

Arguments mkParticle {num} _ _ _.
Arguments vertex {num} _.
Arguments direction {num} _.
Arguments energy {num} _.

(** What the kernel reads off a [PathFinder] or [ReflectedPathFinder];
    [propagate] is the change it makes to the pulse it is given. *)
Record RayPath (num : Type) : Type := mkRayPath {
  exists_ : bool;
  emitted_ray : list num;
  received_ray : list num;
  path_length : num;
  propagate : Signal num -> Signal num
}.

Arguments mkRayPath {num} _ _ _ _ _.
Arguments exists_ {num} _.
Arguments emitted_ray {num} _.
Arguments received_ray {num} _.
Arguments path_length {num} _.
Arguments propagate {num} _ _.

Inductive PathKind : Type := direct | reflected.

(** What the kernel does for one path, as far as the outside sees it: the
    pulse it constructs, the propagation it asks for, the delivery to the
    antenna. [ant] is the antenna's place in the array. *)
Inductive KernelEffect (num : Type) : Type :=
| AskaryanBuilt (ant : nat) (kind : PathKind) (theta : num)
| PropagateCalled (ant : nat) (kind : PathKind)
| ReceiveCalled (ant : nat) (kind : PathKind).

Arguments AskaryanBuilt {num} _ _ _.
Arguments PropagateCalled {num} _ _.
Arguments ReceiveCalled {num} _ _.

(** The generator, the ice model, the ray tracer and the Askaryan pulse the
    kernel is built on. *)
Class KernelEnv (num : Type) : Type := {
  Generator : Type;
  create_particle : Generator -> Particle num * Generator;
  ice_index : num -> num;
  PathFinder : list num -> list num -> RayPath num;
  ReflectedPathFinder : list num -> list num -> RayPath num;
  AskaryanSignal : list num -> num -> num -> num -> Signal num
}.

Section Kernel.
Context {num : Type} {SC : Scalar num} {FL : Floating num} {LM : Libm num}
        {FE : Frontends num} {KE : KernelEnv num}.

(** [normalize(np.vdot(k, p.direction) * k - p.direction)] *)
Definition epol (k p_direction : list num) : list num :=
  normalize (vsub (vscale (vdot k p_direction) k) p_direction).

(** [np.arccos(np.vdot(p.direction, path.emitted_ray))] *)
Definition psi (p : Particle num) (path : RayPath num) : num :=
  np_arccos (vdot (direction p) (emitted_ray path)).

(** [np.pi/2] *)
Definition half_pi : num := f_div np_pi (of_int 2).

(** The pulse the kernel hands to [ant.receive] for a path it does not
    skip, for the index of refraction [n] at the vertex. *)
Definition pulse_for (p : Particle num) (n : num) (path : RayPath num)
  : Signal num :=
  let psi := psi p path in
  let times_ := linspace (nano (-20)) (nano 80) 2048 in
  let pulse := AskaryanSignal times_ (energy p) psi n in
  let pulse := propagate path pulse in
  mkSignal (times pulse)
           (map (fun v => f_div v (path_length path)) (values pulse))
           (value_type pulse).

(** The body of [for path in [pf, rpf]] for antenna [i] of the array. *)
Definition event_path (p : Particle num) (n : num) (i : nat)
  (acc : IREXAntennaSystem num * list (KernelEffect num))
  (kp : PathKind * RayPath num)
  : IREXAntennaSystem num * list (KernelEffect num) :=
  let (ant, log) := acc in
  let (kind, path) := kp in
  if negb (exists_ path) then acc
  else
    let k := received_ray path in
    let epol := epol k (direction p) in
    let psi := psi p path in
    if s_gtb psi half_pi then acc
    else
      let pulse := pulse_for p n path in
      (receive ant pulse (vertex p) epol,
       log ++ [AskaryanBuilt i kind psi; PropagateCalled i kind;
               ReceiveCalled i kind]).

(** The two paths the kernel tries for an antenna, in order. *)
Definition paths_to (p : Particle num) (ant : IREXAntennaSystem num)
  : list (PathKind * RayPath num) :=
  [(direct, PathFinder (vertex p) (position ant));
   (reflected, ReflectedPathFinder (vertex p) (position ant))].

(** The body of [for ant in self.ant_array], for the antennas from place
    [i] on. *)
Fixpoint event_antennas (p : Particle num) (n : num) (i : nat)
  (ant_array : list (IREXAntennaSystem num)) (log : list (KernelEffect num))
  : list (IREXAntennaSystem num) * list (KernelEffect num) :=
  match ant_array with
  | [] => ([], log)
  | ant :: rest =>
      let (ant', log') :=
        fold_left (event_path p n i) (paths_to p ant) (ant, log) in
      let (rest', log'') := event_antennas p n (S i) rest log' in
      (ant' :: rest', log'')
  end.

(** [EventKernel.event]: the particle it returns, the generator and the
    antennas after the call, and what was done on the way. *)
Definition event (gen : Generator) (ant_array : list (IREXAntennaSystem num))
  : outcome (Particle num * Generator * list (IREXAntennaSystem num) *
             list (KernelEffect num)) :=
  let (p, gen') := create_particle gen in
  depth <- index (vertex p) 2 ;;
  let n := ice_index depth in
  let (ants, log) := event_antennas p n 0 ant_array [] in
  Ok (p, gen', ants, log).

End Kernel.

Open Scope R_scope.


(* ================================================================== *)
(** ** The Hilbert envelope *)

(** The sum of [f 0 .. f (N-1)]. *)
Definition rsum (f : nat -> R) (N : nat) : R :=
  fold_right Rplus 0 (map f (seq 0 N)).

(** The angle of the [k*n]-th power of the [N]-th root of unity. *)
Definition dft_angle (N k n : nat) : R := 2 * PI * INR (k * n) / INR N.

(** Real and imaginary part of entry [k] of the discrete Fourier transform
    of [x]. *)
Definition fft_re (x : list R) (k : nat) : R :=
  let N := length x in
  rsum (fun n => nth n x 0 * cos (dft_angle N k n)) N.

Definition fft_im (x : list R) (k : nat) : R :=
  let N := length x in
  rsum (fun n => - (nth n x 0 * sin (dft_angle N k n))) N.

(** The weights that keep the constant (and, for even [N], the Nyquist)
    entry, double the positive frequencies and drop the negative ones. *)
Definition hilbert_h (N k : nat) : R :=
  if (N mod 2 =? 0)%nat then
    if ((k =? 0) || (k =? N / 2))%nat then 1
    else if (k <? N / 2)%nat then 2 else 0
  else
    if (k =? 0)%nat then 1
    else if (k <? (N + 1) / 2)%nat then 2 else 0.

(** Real and imaginary part of sample [n] of the analytic signal: the
    inverse transform of the weighted spectrum. *)
Definition analytic_re (x : list R) (n : nat) : R :=
  let N := length x in
  / INR N *
  rsum (fun k => hilbert_h N k *
                 (fft_re x k * cos (dft_angle N k n) -
                  fft_im x k * sin (dft_angle N k n))) N.

Definition analytic_im (x : list R) (n : nat) : R :=
  let N := length x in
  / INR N *
  rsum (fun k => hilbert_h N k *
                 (fft_re x k * sin (dft_angle N k n) +
                  fft_im x k * cos (dft_angle N k n))) N.

(** Modelled from the spec: the [Signal.envelope] property of
    [pyrex.signals], which is not among the sources; the envelope method
    [hilbert] is the magnitude of the analytic signal obtained from the
    samples by the discrete Hilbert transform. *)
Definition hilbert_envelope (x : list R) : list R :=
  map (fun n => sqrt ((analytic_re x n)² + (analytic_im x n)²))
      (seq 0 (length x)).

(* ================================================================== *)
(** ** Test benches

    Stand-ins for the collaborators of [Frontends], to run the antenna code
    on concrete waveforms: over [Z] with the magnitude of each sample as
    envelope, over [R] with the Hilbert envelope.  The simulator is
    available and knows the three circuits the manual names refer to. *)

#[export] Instance Z_bench : Frontends Z := {
  default_value_type := undefined;
  envelope := fun s => map Z.abs (values s);
  basic_envelope_model := fun s => s;
  pyspice_available := true;
  pyspice_modulenotfound := "No module named 'PySpice'";
  Circuit := string;
  spice_circuits := [("basic", "basic"); ("logamp", "logamp");
                     ("bridge", "bridge")]%string;
  signal_dt := fun s => 1%Z;
  transient_output := fun _ copy _ _ => values copy;
  with_times := fun s t => mkSignal t (values s) (value_type s);
  signal_add := fun a b =>
    mkSignal (times a) (map (fun p => (fst p + snd p)%Z)
                            (combine (values a) (values b)))
             (value_type a);
  NoiseState := nat;
  make_noise := fun st t => (mkSignal t (map (fun _ => 0%Z) t) voltage, S st);
  antenna_full_waveform := fun st _ t =>
    (mkSignal t (map (fun _ => 0%Z) t) voltage, S st);
  antenna_response := fun s _ _ => mkSignal (times s) (values s) voltage
}.

(** The integer bench on a machine where PySpice is not installed. *)
Definition Z_bench_without_pyspice : Frontends Z := {|
  default_value_type := undefined;
  envelope := fun s => map Z.abs (values s);
  basic_envelope_model := fun s => s;
  pyspice_available := false;
  pyspice_modulenotfound := "No module named 'PySpice'";
  Circuit := string;
  spice_circuits := [("basic", "basic"); ("logamp", "logamp");
                     ("bridge", "bridge")]%string;
  signal_dt := fun s => 1%Z;
  transient_output := fun _ copy _ _ => values copy;
  with_times := fun s t => mkSignal t (values s) (value_type s);
  signal_add := fun a b =>
    mkSignal (times a) (map (fun p => (fst p + snd p)%Z)
                            (combine (values a) (values b)))
             (value_type a);
  NoiseState := nat;
  make_noise := fun st t => (mkSignal t (map (fun _ => 0%Z) t) voltage, S st);
  antenna_full_waveform := fun st _ t =>
    (mkSignal t (map (fun _ => 0%Z) t) voltage, S st);
  antenna_response := fun s _ _ => mkSignal (times s) (values s) voltage
|}.

#[export] Instance R_bench : Frontends R := {
  default_value_type := undefined;
  envelope := fun s => hilbert_envelope (values s);
  basic_envelope_model := fun s => s;
  pyspice_available := true;
  pyspice_modulenotfound := "No module named 'PySpice'";
  Circuit := string;
  spice_circuits := [("basic", "basic"); ("logamp", "logamp");
                     ("bridge", "bridge")]%string;
  signal_dt := fun s => 1;
  transient_output := fun _ copy _ _ => values copy;
  with_times := fun s t => mkSignal t (values s) (value_type s);
  signal_add := fun a b =>
    mkSignal (times a) (map (fun p => fst p + snd p)
                            (combine (values a) (values b)))
             (value_type a);
  NoiseState := nat;
  make_noise := fun st t => (mkSignal t (map (fun _ => 0) t) voltage, S st);
  antenna_full_waveform := fun st _ t =>
    (mkSignal t (map (fun _ => 0) t) voltage, S st);
  antenna_response := fun s _ _ => mkSignal (times s) (values s) voltage
}.

(** An antenna system with the given thresholds, gain, clip bound and
    envelope method, newly built. *)
Definition bench_system {num : Type} {FE : Frontends num}
  (noise : NoiseState) (zero : num)
  (trigger_threshold time_over_threshold amplification amplifier_clipping : num)
  (envelope_method : string) : IREXAntennaSystem num :=
  new_system "ant_0"%string [zero; zero; zero]
    trigger_threshold time_over_threshold amplification amplifier_clipping
    envelope_method noise.

Close Scope R_scope.

(* ================================================================== *)
(** ** Vocabulary of the properties *)

Section Vocabulary.
Context {num : Type} {SC : Scalar num} {FE : Frontends num}.

(** The sample [v] is above the trigger threshold of [self]. *)
Definition above (self : IREXAntennaSystem num) (v : num) : bool :=
  s_gtb v (trigger_threshold self).

(** The samples of [signal] at places [i .. i+k-1] exist and all give [b]
    under [p]. *)
Definition stretch (signal : Signal num) (p : num -> bool) (b : bool)
  (i k : nat) : Prop :=
  forall m, i <= m < i + k ->
    exists v, nth_error (values signal) m = Some v /\ p v = b.

(** The method string sends [make_envelope] into its spice branch. *)
Definition reaches_spice (method : string) : bool :=
  negb (str_in "hilbert" method) && negb (str_in "analytic" method) &&
  str_in "spice" method.

(** [v] lies in the interval from [lo] to [hi]. *)
Definition within (lo hi v : num) : Prop :=
  s_gtb lo v = false /\ s_gtb v hi = false.

(** Two states of an antenna system with the same front-end settings. *)
Definition same_config (a b : IREXAntennaSystem num) : Prop :=
  amplification a = amplification b /\
  amplifier_clipping a = amplifier_clipping b /\
  envelope_method a = envelope_method b.

(** The long time window [all_waveforms] builds for the times
    [t0 :: t1]. *)
Definition lead_in (t0 : num) (t1 : list num) : list num :=
  map (fun x => s_add (s_sub x (last (t0 :: t1) t0)) t0) (t0 :: t1) ++ t1.

(** [wf] is what [all_waveforms] computes from the raw signal [raw], for
    some noise realisation. *)
Definition processed (self : IREXAntennaSystem num) (raw wf : Signal num)
  : Prop :=
  exists t0 t1 long_noise long_waveform,
    times raw = t0 :: t1 /\
    snd (front_end self
           (signal_add (with_times raw (lead_in t0 t1)) long_noise))
      = Ok long_waveform /\
    wf = with_times long_waveform (times raw).

(** The cache covers a prefix of the raw signals, in their order. *)
Definition cache_prefix (self : IREXAntennaSystem num) : Prop :=
  length (_all_waveforms self) <= length (antenna_signals self) /\
  Forall2 (processed self)
          (firstn (length (_all_waveforms self)) (antenna_signals self))
          (_all_waveforms self).

(** The envelope method of the system resolves: the front end raises
    nothing. *)
Definition resolves (self : IREXAntennaSystem num) : Prop :=
  forall s, exists w, snd (front_end self s) = Ok w.

(** The system after a sequence of [receive] calls. *)
Definition receive_all (self : IREXAntennaSystem num)
  (calls : list (Signal num * list num * list num)) : IREXAntennaSystem num :=
  fold_left (fun s c => receive s (fst (fst c)) (snd (fst c)) (snd c))
            calls self.

End Vocabulary.

Section KernelVocabulary.
Context {num : Type} {SC : Scalar num} {FL : Floating num} {LM : Libm num}
        {FE : Frontends num} {KE : KernelEnv num}.

(** The kernel does not skip the path: it exists and the comparison
    [psi > np.pi/2] is false. *)
Definition delivers (p : Particle num) (path : RayPath num) : bool :=
  exists_ path && negb (s_gtb (psi p path) half_pi).


End KernelVocabulary.


(* ================================================================== *)
(** ** Concrete systems and waveforms *)

(** An antenna system on the integer bench with trigger threshold 1 and
    minimum time over threshold 1. *)
Definition trigger_bench : IREXAntennaSystem Z :=
  bench_system (num := Z) 0%nat 0%Z 1%Z 1%Z 1%Z 3%Z "hilbert".

(** The same with minimum time over threshold 2. *)
Definition patient_trigger_bench : IREXAntennaSystem Z :=
  bench_system (num := Z) 0%nat 0%Z 1%Z 2%Z 1%Z 3%Z "hilbert".

(** Samples [0,5,5,5] at times [0,1,2,3]: the run lasts to the final
    sample. *)
Definition wave_final_run : Signal Z :=
  mkSignal [0; 1; 2; 3]%Z [0; 5; 5; 5]%Z voltage.

(** Samples [0,5,5,0] at times [0,1,2,3]: the run covers places 1 and 2. *)
Definition wave_inner_run : Signal Z :=
  mkSignal [0; 1; 2; 3]%Z [0; 5; 5; 0]%Z voltage.

Definition hilbert_bench : IREXAntennaSystem Z :=
  bench_system (num := Z) 0%nat 0%Z 1%Z 0%Z 2%Z 3%Z "spice hilbert analytic".

Definition bare_spice_bench : IREXAntennaSystem Z :=
  bench_system (num := Z) 0%nat 0%Z 1%Z 0%Z 2%Z 3%Z "spice".

Definition unknown_circuit_bench : IREXAntennaSystem Z :=
  bench_system (num := Z) 0%nat 0%Z 1%Z 0%Z 2%Z 3%Z "spice diode".

(** A named circuit, on the bench without PySpice. *)
Definition basic_spice_bench
  : IREXAntennaSystem (FE := Z_bench_without_pyspice) Z :=
  bench_system (FE := Z_bench_without_pyspice) 0%nat 0%Z 1%Z 0%Z 2%Z 3%Z
               "spice basic".

Definition analytic_spice_bench : IREXAntennaSystem Z :=
  bench_system (num := Z) 0%nat 0%Z 1%Z 0%Z 2%Z 3%Z "spice analytic basic".

Definition unknown_method_bench : IREXAntennaSystem Z :=
  bench_system (num := Z) 0%nat 0%Z 1%Z 0%Z 2%Z 3%Z "envelope".

Definition analytic_bridge_bench : IREXAntennaSystem Z :=
  bench_system (num := Z) 0%nat 0%Z 1%Z 0%Z 2%Z 3%Z "analytic bridge".

(** A voltage pulse of five samples. *)
Definition voltage_pulse : Signal Z :=
  mkSignal [0; 1; 2; 3; 4]%Z [0; 1; -2; 1; 0]%Z voltage.

Definition two_calls : list (Signal Z * list Z * list Z) :=
  [(voltage_pulse, [0; 0; 0]%Z, [0; 0; 1]%Z);
   (voltage_pulse, [0; 0; 0]%Z, [0; 0; 1]%Z)].

Open Scope R_scope.




Close Scope R_scope.

(** *** The binary64 bench *)

Open Scope float_scope.

(** The front ends on floats. *)
#[export] Instance float_bench : Frontends float := {
  default_value_type := undefined;
  envelope := fun s => map PrimFloat.abs (values s);
  basic_envelope_model := fun s => s;
  pyspice_available := true;
  pyspice_modulenotfound := "No module named 'PySpice'";
  Circuit := string;
  spice_circuits := [("basic", "basic"); ("logamp", "logamp");
                     ("bridge", "bridge")]%string;
  signal_dt := fun s => 1;
  transient_output := fun _ copy _ _ => values copy;
  with_times := fun s t => mkSignal t (values s) (value_type s);
  signal_add := fun a b =>
    mkSignal (times a) (map (fun p => fst p + snd p)
                            (combine (values a) (values b)))
             (value_type a);
  NoiseState := nat;
  make_noise := fun st t => (mkSignal t (map (fun _ => 0) t) voltage, S st);
  antenna_full_waveform := fun st _ t =>
    (mkSignal t (map (fun _ => 0) t) voltage, S st);
  antenna_response := fun s _ _ => mkSignal (times s) (values s) voltage
}.

(** The mathematical library at the arguments the examples use: [np.pi],
    the arccosine of -1, 0 and 1 and of numbers outside [-1, 1], where
    [np.arccos] gives not-a-number, and the cosine and sine of 0.  Other
    arguments do not occur in the examples. *)
#[export] Instance libm_bench : Libm float := {
  np_pi := 0x1.921fb54442d18p+1;
  np_arccos := fun x =>
    if x =? 1 then 0
    else if x =? 0 then 0x1.921fb54442d18p+0
    else if x =? -1 then 0x1.921fb54442d18p+1
    else nan;
  np_cos := fun x => if x =? 0 then 1 else nan;
  np_sin := fun x => if x =? 0 then 0 else nan
}.

(** A vertex right below the antenna, the shower pointing up: the direct
    ray leaves the vertex straight down, against the shower, and the
    reflected ray leaves it straight up, along the shower. *)
#[export] Instance kernel_bench : KernelEnv float := {
  Generator := nat;
  create_particle := fun g => (mkParticle [0; 0; -100] [0; 0; 1] 1e9, S g);
  ice_index := fun _ => 1.75;
  PathFinder := fun _ _ =>
    mkRayPath true [0; 0; -1] [0; 0; -1] 100 (fun s => s);
  ReflectedPathFinder := fun _ _ =>
    mkRayPath true [0; 0; 1] [0; 0; -1] 300 (fun s => s);
  AskaryanSignal := fun t e theta n => mkSignal (firstn 2 t) [e; theta] field
}.

(** The antenna of the array, at the origin. *)
Definition origin_antenna : IREXAntennaSystem float :=
  bench_system (num := float) 0%nat 0 1 0 1 3 "hilbert".

Definition upward_particle : Particle float :=
  mkParticle [0; 0; -100] [0; 0; 1] 1e9.


Definition upward_path : RayPath float :=
  mkRayPath true [0; 0; 1] [0; 0; -1] 300 (fun s => s).

(** The unit vector along the diagonal, [normalize([1, 1, 1])]:
    0.5773502691896258 three times. *)
Definition diagonal : list float :=
  [0x1.279a74590331dp-1; 0x1.279a74590331dp-1; 0x1.279a74590331dp-1].

Close Scope float_scope.

(* ================================================================== *)
(** * Properties *)

(** ** Strings *)

Lemma prefix_app (m b : string) : String.prefix m (m ++ b) = true.
Proof.
  induction m as [|c m IH]; simpl.
  - destruct b; reflexivity.
  - destruct (ascii_dec c c) as [_|n]; [exact IH | now elim n].
Qed.

Lemma str_in_prefix (m s : string) :
  String.prefix m s = true -> str_in m s = true.
Proof.
  intros Hp. destruct s as [|c s]; [exact Hp|].
  change (String.prefix m (String c s) || str_in m s = true).
  now rewrite Hp.
Qed.

Lemma str_in_app (m a b : string) : str_in m (a ++ m ++ b) = true.
Proof.
  induction a as [|c a IH]; simpl.
  - apply str_in_prefix, prefix_app.
  - rewrite IH. apply orb_true_r.
Qed.

(** ** The trigger scan *)

Section TriggerFacts.
Context {num : Type} {SC : Scalar num} {FE : Frontends num}.

Variable self : IREXAntennaSystem num.
Variable signal : Signal num.

Let imax := length (times signal).

Lemma trigger_scan_S (fuel i : nat) :
  trigger_scan self signal imax (S fuel) i =
  if i <? imax then
    e <- trigger_run self signal imax imax i ;;
    if negb (e =? i) then
      ti <- index (times signal) e ;;
      tj <- index (times signal) i ;;
      if s_gtb (s_sub ti tj) (time_over_threshold self) then Ok true
      else trigger_scan self signal imax fuel (S e)
    else trigger_scan self signal imax fuel (S e)
  else Ok false.
Proof. reflexivity. Qed.

Lemma trigger_run_stop (fuel i : nat) :
  fuel <> 0 ->
  (i < imax - 1 -> stretch signal (above self) false i 1) ->
  trigger_run self signal imax fuel i = Ok i.
Proof.
  intros Hf Hb. destruct fuel as [|fuel]; [easy|]. simpl.
  destruct (i <? imax - 1) eqn:E; [|reflexivity].
  apply Nat.ltb_lt in E.
  destruct (Hb E i) as (v & Hv & Hp); [lia|].
  unfold index. rewrite Hv. simpl.
  unfold above in Hp. rewrite Hp. reflexivity.
Qed.

Lemma trigger_run_climb (k fuel i : nat) :
  i + k <= imax - 1 ->
  stretch signal (above self) true i k ->
  trigger_run self signal imax (k + fuel) i =
  trigger_run self signal imax fuel (i + k).
Proof.
  revert i. induction k as [|k IH]; intros i Hle Hs.
  - now rewrite Nat.add_0_r.
  - simpl.
    assert (E : (i <? imax - 1) = true) by (apply Nat.ltb_lt; lia).
    rewrite E.
    destruct (Hs i) as (v & Hv & Hp); [lia|].
    unfold index. rewrite Hv. simpl.
    unfold above in Hp. rewrite Hp.
    rewrite IH; [f_equal; lia | lia |].
    intros m Hm. apply Hs. lia.
Qed.

Lemma trigger_scan_skip (k fuel i : nat) :
  i + k <= imax ->
  stretch signal (above self) false i k ->
  trigger_scan self signal imax (k + fuel) i =
  trigger_scan self signal imax fuel (i + k).
Proof.
  revert i. induction k as [|k IH]; intros i Hle Hs.
  - now rewrite Nat.add_0_r.
  - change (S k + fuel) with (S (k + fuel)). rewrite trigger_scan_S.
    assert (E : (i <? imax) = true) by (apply Nat.ltb_lt; lia).
    rewrite E.
    rewrite trigger_run_stop; [| lia |].
    2:{ intros _ m Hm. apply Hs. lia. }
    simpl. rewrite Nat.eqb_refl. simpl.
    rewrite IH; [f_equal; lia | lia |].
    intros m Hm. apply Hs. lia.
Qed.

Lemma trigger_scan_end (fuel i : nat) :
  fuel <> 0 -> imax <= i ->
  trigger_scan self signal imax fuel i = Ok false.
Proof.
  intros Hf Hi. destruct fuel as [|fuel]; [easy|]. simpl.
  assert (E : (i <? imax) = false) by (apply Nat.ltb_ge; lia).
  now rewrite E.
Qed.

Lemma index_nth {A : Type} (l : list A) (i : nat) (d : A) :
  i < length l -> index l i = Ok (nth i l d).
Proof.
  intros Hi. unfold index.
  now rewrite (nth_error_nth' l d Hi).
Qed.

Lemma stretch_app (p : num -> bool) (b : bool) (pre run post : list num) :
  values signal = pre ++ run ++ post ->
  Forall (fun v => p v = b) run ->
  stretch signal p b (length pre) (length run).
Proof.
  intros Hv Hr m Hm. rewrite Hv.
  rewrite nth_error_app2 by lia.
  rewrite nth_error_app1 by lia.
  destruct (nth_error run (m - length pre)) as [v|] eqn:E.
  - exists v. split; [reflexivity|].
    apply nth_error_In in E.
    rewrite Forall_forall in Hr. now apply Hr.
  - apply nth_error_None in E. lia.
Qed.

Lemma stretch_shorter (p : num -> bool) (b : bool) (i k k' : nat) :
  k' <= k -> stretch signal p b i k -> stretch signal p b i k'.
Proof. intros Hk Hs m Hm. apply Hs. lia. Qed.

(** A run that starts after below-threshold samples and lasts to the final
    sample is measured from its first sample to the final one. *)
Lemma trigger_scan_final_run (pre run : list num) (d : num) :
  values signal = pre ++ run ->
  length (times signal) = length (values signal) ->
  Forall (fun v => above self v = false) pre ->
  Forall (fun v => above self v = true) run ->
  run <> [] ->
  trigger self signal =
  Ok ((1 <? length run) &&
      s_gtb (s_sub (nth (imax - 1) (times signal) d)
                   (nth (length pre) (times signal) d))
            (time_over_threshold self)).
Proof.
  intros Hv Hlen Hpre Hrun Hne.
  assert (Hrl : length run <> 0) by (destruct run; simpl; congruence).
  assert (Himax : imax = length pre + length run).
  { unfold imax. rewrite Hlen, Hv, length_app. reflexivity. }
  assert (Spre : stretch signal (above self) false 0 (length pre)).
  { apply (stretch_app (above self) false [] pre run); [exact Hv | exact Hpre]. }
  assert (Srun : stretch signal (above self) true (length pre) (length run)).
  { apply (stretch_app (above self) true pre run []); [|exact Hrun].
    now rewrite app_nil_r. }
  unfold trigger. fold imax.
  replace (S imax) with (length pre + S (length run)) by lia.
  rewrite trigger_scan_skip; [| simpl; lia | exact Spre].
  simpl (0 + length pre). rewrite trigger_scan_S.
  assert (E : (length pre <? imax) = true) by (apply Nat.ltb_lt; lia).
  rewrite E.
  replace (trigger_run self signal imax imax (length pre))
    with (trigger_run self signal imax
            ((length run - 1) + S (length pre)) (length pre))
    by (f_equal; lia).
  rewrite trigger_run_climb;
    [| lia | apply (stretch_shorter (above self) true _ (length run)); [lia|exact Srun]].
  rewrite trigger_run_stop by lia.
  simpl bind.
  destruct (1 <? length run) eqn:E1.
  - apply Nat.ltb_lt in E1.
    assert (E2 : (length pre + (length run - 1) =? length pre) = false)
      by (apply Nat.eqb_neq; lia).
    rewrite E2. simpl negb. cbv iota.
    rewrite (index_nth (times signal) _ d) by (fold imax; lia).
    rewrite (index_nth (times signal) (length pre) d) by (fold imax; lia).
    simpl bind.
    replace (length pre + (length run - 1)) with (imax - 1) by lia.
    simpl andb.
    destruct (s_gtb _ _); [reflexivity|].
    apply trigger_scan_end; lia.
  - apply Nat.ltb_ge in E1.
    assert (E2 : (length pre + (length run - 1) =? length pre) = true)
      by (apply Nat.eqb_eq; lia).
    rewrite E2. simpl.
    apply trigger_scan_end; lia.
Qed.

(** A run with a sample after it is measured from its first sample to the
    first sample that is back at or below the threshold. *)
Lemma trigger_scan_inner_run (pre run post : list num) (v d : num) :
  values signal = pre ++ run ++ v :: post ->
  length (times signal) = length (values signal) ->
  Forall (fun v => above self v = false) pre ->
  Forall (fun v => above self v = true) run ->
  run <> [] ->
  above self v = false ->
  Forall (fun v => above self v = false) post ->
  trigger self signal =
  Ok (s_gtb (s_sub (nth (length pre + length run) (times signal) d)
                   (nth (length pre) (times signal) d))
            (time_over_threshold self)).
Proof.
  intros Hv Hlen Hpre Hrun Hne Hb Hpost.
  assert (Hrl : length run <> 0) by (destruct run; simpl; congruence).
  assert (Himax : imax = length pre + length run + S (length post)).
  { unfold imax. rewrite Hlen, Hv, !length_app. simpl. lia. }
  assert (Spre : stretch signal (above self) false 0 (length pre)).
  { apply (stretch_app (above self) false [] pre (run ++ v :: post));
      [exact Hv | exact Hpre]. }
  assert (Srun : stretch signal (above self) true (length pre) (length run)).
  { apply (stretch_app (above self) true pre run (v :: post)); [exact Hv|exact Hrun]. }
  assert (Spost : stretch signal (above self) false (length pre + length run)
                    (S (length post))).
  { replace (length pre + length run) with (length (pre ++ run))
      by apply length_app.
    apply (stretch_app (above self) false (pre ++ run) (v :: post) []).
    - now rewrite app_nil_r, <- app_assoc.
    - now constructor. }
  unfold trigger. fold imax.
  replace (S imax) with (length pre + S (imax - length pre)) by lia.
  rewrite trigger_scan_skip; [| simpl; lia | exact Spre].
  simpl (0 + length pre). rewrite trigger_scan_S.
  assert (E : (length pre <? imax) = true) by (apply Nat.ltb_lt; lia).
  rewrite E.
  replace (trigger_run self signal imax imax (length pre))
    with (trigger_run self signal imax
            (length run + (imax - length run)) (length pre))
    by (f_equal; lia).
  rewrite trigger_run_climb; [| lia | exact Srun].
  rewrite trigger_run_stop;
    [| lia | intros _; apply (stretch_shorter (above self) false _ (S (length post)));
             [lia | exact Spost]].
  simpl bind.
  assert (E2 : (length pre + length run =? length pre) = false)
    by (apply Nat.eqb_neq; lia).
  rewrite E2. simpl negb. cbv iota.
  rewrite (index_nth (times signal) _ d) by (fold imax; lia).
  rewrite (index_nth (times signal) (length pre) d) by (fold imax; lia).
  simpl bind.
  destruct (s_gtb _ _); [reflexivity|].
  replace (imax - length pre) with (length post + (length run + 1)) by lia.
  rewrite trigger_scan_skip.
  - apply trigger_scan_end; lia.
  - lia.
  - intros m Hm. apply Spost. lia.
Qed.

(** The two loops of [trigger] end within the fuel they are given. *)
Lemma trigger_run_fuel (fuel i : nat) :
  fuel <> 0 -> imax <= fuel + i ->
  trigger_run self signal imax fuel i <> OutOfFuel /\
  forall e, trigger_run self signal imax fuel i = Ok e ->
            i <= e /\ (i < imax -> e < imax).
Proof.
  revert i. induction fuel as [|fuel IH]; intros i Hf Hle; [easy|].
  simpl. destruct (i <? imax - 1) eqn:E.
  - apply Nat.ltb_lt in E.
    unfold index. destruct (nth_error (values signal) i) as [v|]; simpl.
    + destruct (s_gtb v (trigger_threshold self)).
      * destruct (IH (S i)) as [H1 H2]; [lia | lia |].
        split; [exact H1|]. intros e He. destruct (H2 e He). lia.
      * split; [easy|]. intros e He. injection He as <-. lia.
    + split; easy.
  - split; [easy|]. intros e He. injection He as <-. lia.
Qed.

Lemma trigger_scan_fuel (fuel i : nat) :
  fuel <> 0 -> S imax <= fuel + i ->
  trigger_scan self signal imax fuel i <> OutOfFuel.
Proof.
  revert i. induction fuel as [|fuel IH]; intros i Hf Hle; [easy|].
  rewrite trigger_scan_S.
  destruct (i <? imax) eqn:E; [|easy].
  apply Nat.ltb_lt in E.
  destruct (trigger_run_fuel imax i) as [H1 H2]; [lia | lia |].
  destruct (trigger_run self signal imax imax i) as [e| |]; [|easy|easy].
  destruct (H2 e eq_refl) as [He1 He2]. specialize (He2 E).
  simpl bind.
  assert (Hrec : trigger_scan self signal imax fuel (S e) <> OutOfFuel)
    by (apply IH; lia).
  destruct (negb (e =? i)); [|exact Hrec].
  unfold index.
  destruct (nth_error (times signal) e); [|easy].
  destruct (nth_error (times signal) i); [|easy].
  simpl. destruct (s_gtb _ _); [easy | exact Hrec].
Qed.

Lemma trigger_terminates : trigger self signal <> OutOfFuel.
Proof. unfold trigger. apply trigger_scan_fuel; lia. Qed.

Lemma trigger_run_returns (fuel i : nat) :
  length (values signal) = imax ->
  fuel <> 0 -> imax <= fuel + i ->
  exists e, trigger_run self signal imax fuel i = Ok e /\
            i <= e /\ (i < imax -> e < imax).
Proof.
  intros Hlen. revert i.
  induction fuel as [|fuel IH]; intros i Hf Hle; [easy|].
  simpl. destruct (i <? imax - 1) eqn:E.
  - apply Nat.ltb_lt in E.
    destruct (nth_error (values signal) i) as [v|] eqn:Ev.
    2:{ apply nth_error_None in Ev. lia. }
    unfold index. rewrite Ev. simpl.
    destruct (s_gtb v (trigger_threshold self)).
    + destruct (IH (S i)) as (e & He & H1 & H2); [lia | lia |].
      exists e. split; [exact He|]. lia.
    + exists i. split; [reflexivity|]. lia.
  - exists i. split; [reflexivity|]. lia.
Qed.

Lemma trigger_scan_returns (fuel i : nat) :
  length (values signal) = imax ->
  fuel <> 0 -> S imax <= fuel + i ->
  exists b, trigger_scan self signal imax fuel i = Ok b.
Proof.
  intros Hlen. revert i.
  induction fuel as [|fuel IH]; intros i Hf Hle; [easy|].
  rewrite trigger_scan_S.
  destruct (i <? imax) eqn:E; [|now exists false].
  apply Nat.ltb_lt in E.
  destruct (trigger_run_returns imax i Hlen) as (e & -> & He1 & He2);
    [lia | lia |].
  specialize (He2 E). simpl bind.
  destruct (IH (S e)) as [b Hb]; [lia | lia |].
  destruct (negb (e =? i)); [|now exists b].
  unfold index.
  destruct (nth_error (times signal) e) as [te|] eqn:Ee.
  2:{ apply nth_error_None in Ee. fold imax in Ee. lia. }
  destruct (nth_error (times signal) i) as [ti|] eqn:Ei.
  2:{ apply nth_error_None in Ei. fold imax in Ei. lia. }
  simpl. destruct (s_gtb _ _); [now exists true | now exists b].
Qed.

(** X1: on a signal with as many values as times, [trigger] returns a
    boolean: its loops end and no index is out of range. *)
Theorem trigger_returns :
  length (values signal) = length (times signal) ->
  exists b, trigger self signal = Ok b.
Proof.
  intros Hlen. unfold trigger. apply trigger_scan_returns; [exact Hlen | |]; lia.
Qed.


(** C1 (amended): when the only above-threshold run of a waveform lasts to
    the final sample, [trigger] measures it from its first sample to the
    final sample: it returns true exactly when the run has more than one
    sample and that time exceeds the minimum time over threshold, and false
    otherwise. *)
Theorem trigger_run_to_final_sample (pre run : list num) (d : num) :
  values signal = pre ++ run ->
  length (times signal) = length (values signal) ->
  Forall (fun v => above self v = false) pre ->
  Forall (fun v => above self v = true) run ->
  run <> [] ->
  trigger self signal =
  Ok ((1 <? length run) &&
      s_gtb (s_sub (nth (length (times signal) - 1) (times signal) d)
                   (nth (length pre) (times signal) d))
            (time_over_threshold self)).
Proof.
  intros. now apply trigger_scan_final_run.
Qed.

(** C2 (amended): for a waveform with a single above-threshold run,
    [trigger] measures the run from its first sample to the first sample
    after it (to the final sample when the run lasts that long) and returns
    true exactly when that time exceeds the minimum time over threshold; a
    measured time equal to the minimum does not trigger. *)
Theorem trigger_single_run (pre run post : list num) (d : num) :
  values signal = pre ++ run ++ post ->
  length (times signal) = length (values signal) ->
  Forall (fun v => above self v = false) pre ->
  Forall (fun v => above self v = true) run ->
  run <> [] ->
  Forall (fun v => above self v = false) post ->
  let j := length pre in
  let e := Nat.min (length pre + length run) (length (times signal) - 1) in
  let time := s_sub (nth e (times signal) d) (nth j (times signal) d) in
  trigger self signal =
    Ok (negb (e =? j) && s_gtb time (time_over_threshold self)) /\
  ((forall x, s_gtb x x = false) ->
   time = time_over_threshold self ->
   trigger self signal = Ok false).
Proof.
  intros Hv Hlen Hpre Hrun Hne Hpost j e time.
  assert (Hrl : length run <> 0) by (destruct run; simpl; congruence).
  assert (Main : trigger self signal =
            Ok (negb (e =? j) && s_gtb time (time_over_threshold self))).
  { subst time j. destruct post as [|v post].
    - rewrite app_nil_r in Hv.
      rewrite (trigger_scan_final_run pre run d) by assumption.
      assert (Hi : imax = length pre + length run).
      { unfold imax. rewrite Hlen, Hv, length_app. lia. }
      assert (He : e = imax - 1) by (unfold e; fold imax; lia).
      clearbody e. subst e. f_equal. f_equal.
      destruct (1 <? length run) eqn:E1.
      + apply Nat.ltb_lt in E1. symmetry. apply negb_true_iff.
        apply Nat.eqb_neq. lia.
      + apply Nat.ltb_ge in E1. symmetry. apply negb_false_iff.
        apply Nat.eqb_eq. lia.
    - inversion Hpost as [|? ? Hb Hpost']; subst.
      rewrite (trigger_scan_inner_run pre run post v d) by assumption.
      assert (He : e = length pre + length run).
      { unfold e. rewrite Hlen, Hv, !length_app. simpl. lia. }
      clearbody e. subst e.
      assert (E : (length pre + length run =? length pre) = false)
        by (apply Nat.eqb_neq; lia).
      rewrite E. reflexivity. }
  split; [exact Main|].
  intros Hirr Heq. rewrite Main, Heq, Hirr. now rewrite andb_false_r.
Qed.

End TriggerFacts.

(** *** Concrete waveforms *)

(** C1, as stated, fails: the only above-threshold run of [wave_final_run]
    (places 1 to 3) lasts to the final sample, and [trigger] returns
    true. *)
Lemma trigger_final_run_fires :
  values wave_final_run = [0]%Z ++ [5; 5; 5]%Z /\
  Forall (fun v => above trigger_bench v = false) [0]%Z /\
  Forall (fun v => above trigger_bench v = true) [5; 5; 5]%Z /\
  trigger trigger_bench wave_final_run = Ok true.
Proof.
  repeat split; repeat constructor.
Qed.

Lemma trigger_returns_witness :
  exists b, trigger trigger_bench wave_inner_run = Ok b.
Proof.
  exact (trigger_returns trigger_bench wave_inner_run eq_refl).
Defined.

Lemma trigger_run_to_final_sample_witness :
  trigger trigger_bench wave_final_run =
  Ok ((1 <? 3) && (3 - 1 >? 1)%Z).
Proof.
  refine (trigger_run_to_final_sample trigger_bench wave_final_run
            [0]%Z [5; 5; 5]%Z 0%Z _ _ _ _ _).
  - reflexivity.
  - reflexivity.
  - repeat constructor.
  - repeat constructor.
  - discriminate.
Defined.

(** C2, as stated, fails: the first and last above-threshold samples of
    [wave_inner_run] are at times 1 and 2, exactly the minimum time over
    threshold apart, and [trigger] returns true. *)
Lemma trigger_inner_run_fires :
  values wave_inner_run = [0]%Z ++ [5; 5]%Z ++ [0]%Z /\
  Forall (fun v => above trigger_bench v = true) [5; 5]%Z /\
  Forall (fun v => above trigger_bench v = false) [0]%Z /\
  (nth 2 (times wave_inner_run) 0 - nth 1 (times wave_inner_run) 0)%Z =
    time_over_threshold trigger_bench /\
  trigger trigger_bench wave_inner_run = Ok true.
Proof.
  repeat split; repeat constructor.
Qed.

Lemma trigger_single_run_witness :
  trigger patient_trigger_bench wave_inner_run =
    Ok (negb (2 =? 1) && (3 - 1 >? 2)%Z) /\
  trigger patient_trigger_bench wave_inner_run = Ok false.
Proof.
  assert (W := trigger_single_run patient_trigger_bench wave_inner_run
                 [0]%Z [5; 5]%Z [0]%Z 0%Z eq_refl eq_refl).
  cbv zeta in W.
  destruct W as [W1 W2].
  - repeat constructor.
  - repeat constructor.
  - discriminate.
  - repeat constructor.
  - split; [exact W1|]. apply W2; [|reflexivity].
    intros x. change (s_gtb x x) with (x >? x)%Z.
    rewrite Z.gtb_ltb. apply Z.ltb_irrefl.
Defined.

(** ** The envelope stage *)

Section EnvelopeFacts.
Context {num : Type} {SC : Scalar num} {FE : Frontends num}.

Variable self : IREXAntennaSystem num.
Variable signal : Signal num.

Lemma circuit_getitem_raise (l : list (string * Circuit)) (k : string)
  (e : exn) :
  circuit_getitem l k = Raise e -> e = KeyError k.
Proof.
  induction l as [|[k' v] l IH]; simpl.
  - now intros [= <-].
  - destruct (String.eqb k' k); [discriminate | exact IH].
Qed.

Lemma select_circuit_raise (method : string) (e : exn) :
  select_circuit method = Raise e -> exists k, e = KeyError k.
Proof.
  unfold select_circuit.
  destruct (match_circuit_key _ _); [discriminate|].
  repeat match goal with
         | |- (if ?b then _ else _) = _ -> _ => destruct b
         | |- bind (circuit_getitem ?l ?k) _ = _ -> _ =>
             let E := fresh "E" in
             destruct (circuit_getitem l k) eqn:E; simpl
         end; try discriminate.
  all: intros [= <-]; eexists; eapply circuit_getitem_raise; eassumption.
Qed.

(** C6: with the method string ["spice"] and nothing else, [make_envelope]
    raises before anything is done to the simulator: a [ValueError], or the
    [ModuleNotFoundError] of the missing dependency.  On every method of
    the spice family a missing dependency is raised before anything else
    happens in the branch. *)
Theorem spice_errors_precede_simulator :
  (envelope_method self = "spice" ->
   make_envelope self signal =
   ([], Raise (if pyspice_available
               then ValueError "Type of spice circuit to use must be specified"
               else ModuleNotFoundError pyspice_modulenotfound))) /\
  (reaches_spice (envelope_method self) = true ->
   pyspice_available = false ->
   make_envelope self signal =
   ([], Raise (ModuleNotFoundError pyspice_modulenotfound))).
Proof.
  split.
  - intros Hm. unfold make_envelope. rewrite Hm. simpl.
    destruct pyspice_available; reflexivity.
  - intros Hr Ha. unfold reaches_spice in Hr.
    apply andb_true_iff in Hr as [Hr Hs].
    apply andb_true_iff in Hr as [Hh Han].
    apply negb_true_iff in Hh, Han.
    unfold make_envelope. rewrite Hh, Han, Hs, Ha. reflexivity.
Qed.

(** C9: the messages of the errors [make_envelope] raises.  The errors for
    an unmatched circuit and for an unsupported method are built from the
    envelope method string and contain it.  The error for an analytic
    method with another qualifier, the error for the bare name ["spice"]
    and the error for the missing dependency carry a fixed text, whatever
    the method string is: they do not name it. *)
Theorem configuration_error_messages (events : list SpiceEvent) (e : exn) :
  make_envelope self signal = (events, Raise e) ->
  let method := envelope_method self in
  (e = ValueError "Only basic envelope circuit is modeled analytically" /\
   str_in "analytic" method = true) \/
  (e = ValueError "Type of spice circuit to use must be specified" /\
   method = "spice") \/
  (e = ModuleNotFoundError pyspice_modulenotfound /\
   reaches_spice method = true) \/
  (e = ValueError ("Circuit '" ++ method ++ "' not implemented") /\
   str_in method (exn_message e) = true) \/
  (e = ValueError ("No envelope method matching '" ++ method ++ "'") /\
   str_in method (exn_message e) = true) \/
  (exists key, e = KeyError key) \/
  e = IndexError.
Proof.
  unfold make_envelope. intros Hm. cbv zeta.
  destruct (str_in "hilbert" (envelope_method self)) eqn:Hh; [discriminate|].
  destruct (str_in "analytic" (envelope_method self)) eqn:Han.
  - destruct (_ || _); [discriminate|].
    injection Hm as _ <-. left. split; reflexivity.
  - destruct (str_in "spice" (envelope_method self)) eqn:Hs.
    + destruct pyspice_available; simpl in Hm.
      * destruct (String.eqb (envelope_method self) "spice") eqn:E.
        -- apply String.eqb_eq in E. injection Hm as _ <-.
           right. left. split; [reflexivity | exact E].
        -- destruct (times signal);
             [injection Hm as _ <-; do 6 right; reflexivity|].
           destruct (select_circuit (envelope_method self))
             as [[c|]|e'|] eqn:Es.
           ++ discriminate.
           ++ injection Hm as _ <-. do 3 right. left.
              split; [reflexivity|].
              exact (str_in_app _ "Circuit '" "' not implemented").
           ++ destruct (select_circuit_raise _ _ Es) as [k ->].
              injection Hm as _ <-. do 5 right. left. now exists k.
           ++ discriminate.
      * injection Hm as _ <-. do 2 right. left.
        split; [reflexivity|]. unfold reaches_spice.
        now rewrite Hh, Han, Hs.
    + injection Hm as _ <-. do 4 right. left. split; [reflexivity|].
      exact (str_in_app _ "No envelope method matching '" "'").
Qed.


(** C10: a method string that contains ["hilbert"] takes the Hilbert
    branch and raises nothing, whatever else it contains; without
    ["hilbert"], one that contains ["analytic"] takes the analytic branch,
    whatever else it contains; only then is ["spice"] looked for. *)
Theorem envelope_dispatch_by_containment :
  (str_in "hilbert" (envelope_method self) = true ->
   make_envelope self signal =
   ([], Ok (mkSignal (times signal) (envelope signal) (value_type signal)))) /\
  (str_in "hilbert" (envelope_method self) = false ->
   str_in "analytic" (envelope_method self) = true ->
   make_envelope self signal =
   ([], if str_in "basic" (envelope_method self) ||
           String.eqb (envelope_method self) "analytic"
        then Ok (basic_envelope_model signal)
        else Raise (ValueError
                      "Only basic envelope circuit is modeled analytically"))) /\
  (str_in "hilbert" (envelope_method self) = false ->
   str_in "analytic" (envelope_method self) = false ->
   str_in "spice" (envelope_method self) = false ->
   make_envelope self signal =
   ([], Raise (ValueError ("No envelope method matching '" ++
                           envelope_method self ++ "'")))).
Proof.
  unfold make_envelope. repeat split.
  - intros ->. reflexivity.
  - intros -> ->. destruct (_ || _); reflexivity.
  - intros -> -> ->. reflexivity.
Qed.

End EnvelopeFacts.

(** ** The front end *)

Section FrontEndFacts.
Context {num : Type} {SC : Scalar num} {FE : Frontends num}.

Variable self : IREXAntennaSystem num.
Variable signal : Signal num.

Lemma np_clip_within (a : list num) (lo hi : num) :
  (forall x y, s_gtb x y = true -> s_gtb y x = false) ->
  s_gtb lo hi = false ->
  Forall (within lo hi) (np_clip a lo hi).
Proof.
  intros Hasym Hle. unfold np_clip. apply Forall_map, Forall_forall.
  intros v _. unfold within, np_minimum, np_maximum.
  assert (Hirr : forall x, s_gtb x x = false).
  { intros x. destruct (s_gtb x x) eqn:E; [|reflexivity].
    now rewrite (Hasym _ _ E) in E. }
  destruct (s_gtb lo v) eqn:E1.
  - destruct (s_gtb hi lo) eqn:E2.
    + split; [apply Hirr | exact Hle].
    + split; [exact Hle | apply Hirr].
  - destruct (s_gtb hi v) eqn:E2.
    + split; [exact E1 | now apply Hasym].
    + split; [exact Hle | apply Hirr].
Qed.


(** C8: what [front_end] returns does not depend on the tag of its input;
    when it returns a waveform from the Hilbert or the spice branch, the
    waveform has the time axis of the input and the tag of a signal built
    without one. *)
Theorem front_end_times_and_tag :
  (forall tag : ValueTypes,
     front_end self (mkSignal (times signal) (values signal) tag) =
     front_end self signal) /\
  (forall events out,
     front_end self signal = (events, Ok out) ->
     str_in "hilbert" (envelope_method self) = true \/
     str_in "analytic" (envelope_method self) = false ->
     times out = times signal /\ value_type out = default_value_type).
Proof.
  split; [reflexivity|].
  intros events out Hf Hm. unfold front_end, make_envelope in Hf.
  destruct (str_in "hilbert" (envelope_method self)).
  - injection Hf as _ <-. now split.
  - destruct Hm as [Hm|Hm]; [discriminate|]. rewrite Hm in Hf.
    destruct (str_in "spice" (envelope_method self)); [|discriminate].
    destruct (negb pyspice_available); [discriminate|].
    destruct (String.eqb _ _); [discriminate|].
    cbn [times Signal_] in Hf.
    destruct (times signal) as [|t0 t]; [discriminate|].
    destruct (select_circuit _) as [[c|]|e|]; try discriminate.
    injection Hf as _ <-. now split.
Qed.

End FrontEndFacts.

(** *** Concrete configurations *)

Lemma spice_errors_precede_simulator_witness :
  make_envelope bare_spice_bench voltage_pulse =
    ([], Raise (ValueError "Type of spice circuit to use must be specified")) /\
  make_envelope basic_spice_bench voltage_pulse =
    ([], Raise (ModuleNotFoundError "No module named 'PySpice'")).
Proof.
  split.
  - exact (proj1 (spice_errors_precede_simulator bare_spice_bench
                    voltage_pulse) eq_refl).
  - exact (proj2 (spice_errors_precede_simulator basic_spice_bench
                    voltage_pulse) eq_refl eq_refl).
Defined.

(** C9 at the method ["analytic bridge"]: the message is the fixed text of
    the analytic branch and does not contain the method string. *)
Lemma configuration_error_messages_witness :
  make_envelope analytic_bridge_bench voltage_pulse =
    ([], Raise (ValueError
                  "Only basic envelope circuit is modeled analytically")) /\
  str_in (envelope_method analytic_bridge_bench)
         "Only basic envelope circuit is modeled analytically" = false /\
  str_in "analytic" (envelope_method analytic_bridge_bench) = true.
Proof.
  split; [reflexivity|]. split; [reflexivity|].
  destruct (configuration_error_messages analytic_bridge_bench voltage_pulse
              [] _ eq_refl)
    as [[_ H]|[[H _]|[[H _]|[[H _]|[[H _]|[[k H]|H]]]]]];
    [exact H | discriminate H ..].
Defined.

Lemma envelope_dispatch_by_containment_witness :
  make_envelope hilbert_bench voltage_pulse =
    ([], Ok (mkSignal [0; 1; 2; 3; 4]%Z [0; 1; 2; 1; 0]%Z voltage)) /\
  make_envelope analytic_spice_bench voltage_pulse =
    ([], Ok voltage_pulse) /\
  make_envelope unknown_method_bench voltage_pulse =
    ([], Raise (ValueError "No envelope method matching 'envelope'")).
Proof.
  split; [|split].
  - exact (proj1 (envelope_dispatch_by_containment hilbert_bench
                    voltage_pulse) eq_refl).
  - exact (proj1 (proj2 (envelope_dispatch_by_containment
                           analytic_spice_bench voltage_pulse))
                 eq_refl eq_refl).
  - exact (proj2 (proj2 (envelope_dispatch_by_containment
                           unknown_method_bench voltage_pulse))
                 eq_refl eq_refl eq_refl).
Defined.


(** The tag of [voltage_pulse] is lost on the way through [front_end]. *)
Lemma front_end_times_and_tag_witness :
  times (mkSignal [0; 1; 2; 3; 4]%Z [0; 2; 3; 2; 0]%Z undefined) =
    times voltage_pulse /\
  value_type (mkSignal [0; 1; 2; 3; 4]%Z [0; 2; 3; 2; 0]%Z undefined) =
    undefined.
Proof.
  exact (proj2 (front_end_times_and_tag hilbert_bench voltage_pulse)
               [] _ eq_refl (or_introl eq_refl)).
Defined.

(** *** The Hilbert envelope of a clipped square wave *)

Open Scope R_scope.







Close Scope R_scope.

(** ** The polarization vector *)

Open Scope float_scope.

(** C4: on binary64 the polarization vector is not the zero vector when
    the received ray equals the shower direction.  For the unit vector
    along the diagonal, which is what [normalize([1, 1, 1])] gives and
    whose norm the code computes as 1, the dot product of the vector with
    itself is rounded to 1.0000000000000002, so [(k . d) * k - d] is a
    rounding residue and not zero, and [normalize] scales it up: the
    polarization vector is the diagonal unit vector itself, and its dot
    product with the received ray is 1.0000000000000002, not 0. *)
Theorem polarization_on_shower_axis :
  normalize [1; 1; 1] = diagonal /\
  norm diagonal = 1 /\
  vdot diagonal diagonal = 0x1.0000000000001p+0 /\
  epol diagonal diagonal = diagonal /\
  vdot (epol diagonal diagonal) diagonal = 0x1.0000000000001p+0.
Proof. repeat split; vm_compute; reflexivity. Qed.

(** For the axis vectors the products are exact and the vector is zero. *)
Lemma polarization_on_axis_vector :
  epol [0; 0; 1] [0; 0; 1] = [0; 0; 0].
Proof. vm_compute. reflexivity. Qed.

(** The literals of the kernel's time window. *)
Lemma nano_literals :
  nano (-20) = -0x1.5798ee2308c3ap-26 /\ nano 80 = 0x1.5798ee2308c3ap-24 /\
  half_pi = 0x1.921fb54442d18p+0.
Proof. repeat split; vm_compute; reflexivity. Qed.

Close Scope float_scope.

(** ** The event kernel *)

Section KernelFacts.
Context {num : Type} {SC : Scalar num} {FL : Floating num} {LM : Libm num}
        {FE : Frontends num} {KE : KernelEnv num}.

Lemma event_path_skips (p : Particle num) (n : num) (i : nat)
  (acc : IREXAntennaSystem num * list (KernelEffect num)) (kind : PathKind)
  (path : RayPath num) :
  delivers p path = false -> event_path p n i acc (kind, path) = acc.
Proof.
  unfold delivers, event_path. destruct acc as [ant log].
  destruct (exists_ path); simpl; [|reflexivity].
  destruct (s_gtb (psi p path) half_pi); simpl; [reflexivity | discriminate].
Qed.






End KernelFacts.

(** *** A vertex right below the antenna, on binary64

    The shower points up.  The direct ray leaves the vertex straight down:
    the dot product is -1, its arccosine [np.pi], and the path is skipped.
    The reflected ray leaves it straight up: the dot product is 1, the
    angle 0, and its pulse is delivered. *)


Lemma upward_event :
  event (KE := kernel_bench) 0%nat [origin_antenna] =
  Ok (upward_particle, 1%nat,
      [receive origin_antenna (pulse_for upward_particle 1.75%float upward_path)
         [0; 0; -100]%float
         (epol [0; 0; -1]%float [0; 0; 1]%float)],
      [AskaryanBuilt 0 reflected 0%float; PropagateCalled 0 reflected;
       ReceiveCalled 0 reflected]).
Proof. vm_compute. reflexivity. Qed.



(** ** The waveform cache *)

Section CacheFacts.
Context {num : Type} {SC : Scalar num} {FE : Frontends num}.

Lemma same_config_refl (a : IREXAntennaSystem num) : same_config a a.
Proof. now repeat split. Qed.

Lemma same_config_trans (a b c : IREXAntennaSystem num) :
  same_config a b -> same_config b c -> same_config a c.
Proof.
  intros (A1 & A2 & A3) (B1 & B2 & B3). repeat split; congruence.
Qed.

Lemma front_end_config (a b : IREXAntennaSystem num) (s : Signal num) :
  same_config a b -> front_end a s = front_end b s.
Proof.
  intros (E1 & E2 & E3).
  unfold front_end, amplified_values, make_envelope.
  now rewrite E1, E2, E3.
Qed.

Lemma processed_config (a b : IREXAntennaSystem num) (raw wf : Signal num) :
  same_config a b -> processed a raw wf -> processed b raw wf.
Proof.
  intros Hc (t0 & t1 & ln & lw & Ht & Hf & Hw).
  exists t0, t1, ln, lw. split; [exact Ht|]. split; [|exact Hw].
  now rewrite <- (front_end_config a b).
Qed.

Lemma cache_prefix_config (a b : IREXAntennaSystem num) :
  same_config a b ->
  antenna_signals b = antenna_signals a ->
  _all_waveforms b = _all_waveforms a ->
  cache_prefix a -> cache_prefix b.
Proof.
  intros Hc Hs Hw [Hl Hp]. unfold cache_prefix. rewrite Hs, Hw.
  split; [exact Hl|].
  eapply Forall2_impl; [|exact Hp].
  intros raw wf. now apply processed_config.
Qed.

Lemma firstn_snoc {A : Type} (l : list A) (n : nat) (a : A) :
  nth_error l n = Some a -> firstn (S n) l = firstn n l ++ [a].
Proof.
  revert n. induction l as [|x l IH]; intros [|n]; simpl; try discriminate.
  - now intros [= ->].
  - intros Hn. f_equal. now apply IH.
Qed.

Lemma circuit_getitem_fuel (l : list (string * Circuit)) (k : string) :
  circuit_getitem l k <> OutOfFuel.
Proof.
  induction l as [|[k' v] l IH]; simpl; [discriminate|].
  destruct (String.eqb k' k); [discriminate | exact IH].
Qed.

Lemma select_circuit_fuel (method : string) :
  select_circuit method <> OutOfFuel.
Proof.
  unfold select_circuit.
  destruct (match_circuit_key _ _); [discriminate|].
  repeat match goal with
         | |- (if ?b then _ else _) <> _ => destruct b
         | |- bind (circuit_getitem ?l ?k) _ <> _ =>
             let E := fresh "E" in
             destruct (circuit_getitem l k) eqn:E; simpl
         end; try discriminate.
  all: intros _; eapply circuit_getitem_fuel; eassumption.
Qed.

(** The front end has no loop to run out of fuel in. *)
Lemma front_end_fuel (self : IREXAntennaSystem num) (s : Signal num) :
  snd (front_end self s) <> OutOfFuel.
Proof.
  unfold front_end, make_envelope.
  repeat match goal with
         | |- context [if ?b then _ else _] => destruct b
         end; simpl; try discriminate.
  destruct (times s); simpl; [discriminate|].
  destruct (select_circuit _) as [[c|]|e|] eqn:E; simpl; try discriminate.
  now elim (select_circuit_fuel _ E).
Qed.

(** What the loop of [all_waveforms] does, whatever fuel it is given. *)
Lemma all_waveforms_loop_spec (fuel : nat) :
  forall self self' r,
    all_waveforms_loop fuel self = (self', r) ->
    cache_prefix self ->
    same_config self self' /\
    antenna_signals self' = antenna_signals self /\
    cache_prefix self' /\
    (exists added, _all_waveforms self' = _all_waveforms self ++ added) /\
    (r = Ok tt ->
     length (_all_waveforms self') = length (antenna_signals self')) /\
    (length (antenna_signals self) - length (_all_waveforms self) < fuel ->
     r <> OutOfFuel) /\
    (resolves self ->
     Forall (fun s => times s <> []) (antenna_signals self) ->
     forall e, r <> Raise e).
Proof.
  induction fuel as [|fuel IH]; intros self self' r Hloop Hinv.
  - simpl in Hloop. injection Hloop as <- <-.
    repeat split; try apply Hinv; try easy.
    now exists []; rewrite app_nil_r.
  - simpl in Hloop.
    destruct (length (_all_waveforms self) <? length (antenna_signals self))
      eqn:E.
    2:{ injection Hloop as <- <-. apply Nat.ltb_ge in E.
        repeat split; try apply Hinv; try easy.
        - now exists []; rewrite app_nil_r.
        - intros _. destruct Hinv as [Hl _]. lia. }
    apply Nat.ltb_lt in E. unfold index in Hloop.
    destruct (nth_error (antenna_signals self)
                        (length (_all_waveforms self))) as [signal|] eqn:En.
    2:{ apply nth_error_None in En. lia. }
    destruct (times signal) as [|t0 t1] eqn:Et.
    { injection Hloop as <- <-.
      repeat split; try apply Hinv; try easy.
      - now exists []; rewrite app_nil_r.
      - intros _ Hne e _. apply nth_error_In in En.
        rewrite Forall_forall in Hne. now apply (Hne signal En). }
    destruct (make_noise (antenna_noise self)
                (map (fun x => s_add (s_sub x (last (t0 :: t1) t0)) t0)
                     (t0 :: t1) ++ t1)) as [long_noise noise'] eqn:En'.
    fold (lead_in t0 t1) in Hloop, En'.
    set (self1 := set_antenna_noise self noise') in *.
    assert (Hc1 : same_config self self1) by now repeat split.
    destruct (snd (front_end self1
                (signal_add (with_times signal (lead_in t0 t1)) long_noise)))
      as [long_waveform|e|] eqn:Ef.
    + set (self2 := set_all_waveforms self1
                      (_all_waveforms self1 ++
                       [with_times long_waveform (t0 :: t1)])) in *.
      assert (Hc2 : same_config self self2) by now repeat split.
      assert (Hinv2 : cache_prefix self2).
      { destruct Hinv as [Hl Hp]. unfold cache_prefix, self2. cbn.
        rewrite length_app. simpl. split; [lia|].
        rewrite Nat.add_1_r, (firstn_snoc _ _ _ En).
        apply Forall2_app.
        - eapply Forall2_impl; [|exact Hp].
          intros raw wf. now apply processed_config.
        - constructor; [|constructor].
          exists t0, t1, long_noise, long_waveform.
          split; [exact Et|]. split; [|now rewrite Et].
          now rewrite <- Ef. }
      destruct (IH self2 self' r Hloop Hinv2)
        as (Hc & Hs & Hi & (added & Ha) & Hok & Hfuel & Hraise).
      split; [now apply (same_config_trans _ self2)|].
      split; [exact Hs|]. split; [exact Hi|].
      split.
      { exists (with_times long_waveform (t0 :: t1) :: added).
        rewrite Ha. unfold self2. cbn. now rewrite <- app_assoc. }
      split; [exact Hok|]. split.
      { intros Hlt. apply Hfuel. unfold self2. cbn.
        rewrite length_app. simpl. lia. }
      intros Hres Hne. apply Hraise; [|exact Hne].
      intros s. destruct (Hres s) as [w Hw]. exists w.
      now rewrite <- (front_end_config self self2).
    + injection Hloop as <- <-.
      split; [exact Hc1|]. split; [reflexivity|].
      split; [now apply (cache_prefix_config self)|].
      split; [now exists []; rewrite app_nil_r|].
      split; [discriminate|]. split; [discriminate|].
      intros Hres _ e' He'.
      destruct (Hres (signal_add (with_times signal (lead_in t0 t1))
                                 long_noise)) as [w Hw].
      rewrite (front_end_config self self1) in Hw by exact Hc1.
      congruence.
    + now elim (front_end_fuel _ _ Ef).
Qed.


Lemma all_waveforms_spec (self self' : IREXAntennaSystem num)
  (r : outcome (list (Signal num))) :
  all_waveforms self = (self', r) ->
  cache_prefix self ->
  same_config self self' /\
  antenna_signals self' = antenna_signals self /\
  cache_prefix self' /\
  (exists added, _all_waveforms self' = _all_waveforms self ++ added) /\
  (forall ws, r = Ok ws ->
     ws = _all_waveforms self' /\
     length ws = length (antenna_signals self')) /\
  r <> OutOfFuel /\
  (resolves self ->
   Forall (fun s => times s <> []) (antenna_signals self) ->
   exists ws, r = Ok ws).
Proof.
  unfold all_waveforms. intros Ha Hinv.
  destruct (all_waveforms_loop (S (length (antenna_signals self))) self)
    as [self0 r0] eqn:Hloop.
  injection Ha as <- <-.
  destruct (all_waveforms_loop_spec _ _ _ _ Hloop Hinv)
    as (Hc & Hs & Hi & Hadd & Hok & Hfuel & Hraise).
  split; [exact Hc|]. split; [exact Hs|]. split; [exact Hi|].
  split; [exact Hadd|].
  assert (Hf : r0 <> OutOfFuel) by (apply Hfuel; lia).
  split; [|split].
  - intros ws Hws. destruct r0 as [[]| |]; try discriminate.
    injection Hws as <-. split; [reflexivity|]. now apply Hok.
  - destruct r0; simpl; congruence.
  - intros Hres Hne. destruct r0 as [[]|e|].
    + now eexists.
    + now elim (Hraise Hres Hne e).
    + now elim Hf.
Qed.

(** With the cache as long as the raw-signal list, an access changes
    nothing and returns the cache. *)
Lemma all_waveforms_settled (self : IREXAntennaSystem num) :
  length (_all_waveforms self) = length (antenna_signals self) ->
  all_waveforms self = (self, Ok (_all_waveforms self)).
Proof.
  intros Hl. unfold all_waveforms. simpl.
  rewrite Hl, Nat.ltb_irrefl. reflexivity.
Qed.

Lemma receive_cache_prefix (self : IREXAntennaSystem num)
  (signal : Signal num) (origin polarization : list num) :
  cache_prefix self -> cache_prefix (receive self signal origin polarization).
Proof.
  intros [Hl Hp]. unfold cache_prefix, receive. cbn.
  rewrite length_app. split; [lia|].
  rewrite firstn_app.
  replace (length (_all_waveforms self) - length (antenna_signals self))
    with 0 by lia.
  simpl. rewrite app_nil_r.
  eapply Forall2_impl; [|exact Hp].
  intros raw wf. now apply processed_config.
Qed.

Lemma reachable_cache_prefix (self : IREXAntennaSystem num) :
  reachable self -> cache_prefix self.
Proof.
  induction 1 as [|self self' _ IH Hstep].
  - split; [apply le_n | constructor].
  - destruct Hstep as [self signal origin polarization|self|self times|self].
    + now apply receive_cache_prefix.
    + destruct (all_waveforms self) as [self' r] eqn:Ha.
      now apply (all_waveforms_spec _ _ _ Ha).
    + unfold full_waveform. destruct times as [|t0 t1]; [exact IH|].
      destruct (antenna_full_waveform _ _ _) as [pre noise'].
      now apply (cache_prefix_config self).
    + split; [apply le_n | constructor].
Qed.

Lemma receive_all_signals (calls : list (Signal num * list num * list num)) :
  forall self,
    length (antenna_signals (receive_all self calls)) =
    length (antenna_signals self) + length calls.
Proof.
  unfold receive_all.
  induction calls as [|c calls IH]; intros self; simpl; [lia|].
  rewrite IH. unfold receive. cbn. rewrite length_app. simpl. lia.
Qed.

Lemma receive_all_reachable
  (calls : list (Signal num * list num * list num)) :
  forall self, reachable self -> reachable (receive_all self calls).
Proof.
  unfold receive_all.
  induction calls as [|c calls IH]; intros self Hr; simpl; [exact Hr|].
  apply IH. eapply reach_step; [exact Hr | constructor].
Qed.

(** C7: in every state an antenna system reaches, the cache is no longer
    than the raw-signal list and holds, in order, the waveforms computed
    from the first raw signals.  An access of [all_waveforms] that returns
    leaves the cache as long as the raw-signal list (so after [N] further
    [receive] calls it has [N] more entries than raw signals were there
    before), and a second access changes nothing and returns the same
    stored list.  The access returns whenever the envelope method resolves
    and no raw signal is empty. *)
Theorem waveform_cache_prefix_memoized (self : IREXAntennaSystem num) :
  reachable self ->
  cache_prefix self /\
  (forall self' ws,
     all_waveforms self = (self', Ok ws) ->
     ws = _all_waveforms self' /\
     antenna_signals self' = antenna_signals self /\
     length ws = length (antenna_signals self') /\
     all_waveforms self' = (self', Ok ws)) /\
  (forall calls self' ws,
     all_waveforms (receive_all self calls) = (self', Ok ws) ->
     length ws = length (antenna_signals self) + length calls) /\
  (resolves self ->
   Forall (fun s => times s <> []) (antenna_signals self) ->
   exists self' ws, all_waveforms self = (self', Ok ws)).
Proof.
  intros Hr. pose proof (reachable_cache_prefix self Hr) as Hinv.
  split; [exact Hinv|]. split; [|split].
  - intros self' ws Ha.
    destruct (all_waveforms_spec _ _ _ Ha Hinv)
      as (_ & Hs & _ & _ & Hok & _).
    destruct (Hok ws eq_refl) as [-> Hl].
    split; [reflexivity|]. split; [exact Hs|]. split; [exact Hl|].
    now apply all_waveforms_settled.
  - intros calls self' ws Ha.
    pose proof (reachable_cache_prefix _ (receive_all_reachable calls _ Hr))
      as Hinv'.
    destruct (all_waveforms_spec _ _ _ Ha Hinv')
      as (_ & Hs & _ & _ & Hok & _).
    destruct (Hok ws eq_refl) as [_ Hl].
    now rewrite Hl, Hs, receive_all_signals.
  - intros Hres Hne.
    destruct (all_waveforms self) as [self' r] eqn:Ha.
    destruct (all_waveforms_spec _ _ _ Ha Hinv)
      as (_ & _ & _ & _ & _ & _ & Hex).
    destruct (Hex Hres Hne) as [ws ->]. now exists self', ws.
Qed.

End CacheFacts.

(** *** Two pulses received, then two accesses *)

Lemma waveform_cache_prefix_memoized_witness :
  (exists self' ws,
     all_waveforms (receive_all hilbert_bench two_calls) = (self', Ok ws) /\
     length ws = 2 /\
     length (antenna_signals self') = 2 /\
     all_waveforms self' = (self', Ok ws)) /\
  (exists self' ws,
     all_waveforms (receive_all hilbert_bench two_calls) = (self', Ok ws)).
Proof.
  assert (Hr : reachable hilbert_bench) by apply reach_new.
  destruct (waveform_cache_prefix_memoized hilbert_bench Hr)
    as (_ & _ & HN & _).
  destruct (waveform_cache_prefix_memoized _
              (receive_all_reachable two_calls _ Hr))
    as (_ & HB & _ & HR).
  split.
  - eexists _, _. split; [reflexivity|].
    split; [exact (HN two_calls _ _ eq_refl)|].
    destruct (HB _ _ eq_refl) as (_ & _ & Hl & Hagain).
    split; [reflexivity | exact Hagain].
  - apply HR.
    + intros s. eexists. reflexivity.
    + repeat constructor; discriminate.
Defined.

(* ================================================================== *)
(** * Further properties *)

(** ** What makes [trigger] fire *)

Section TriggerRuns.
Context {num : Type} {SC : Scalar num} {FE : Frontends num}.

Variable self : IREXAntennaSystem num.
Variable signal : Signal num.

Let imax := length (times signal).

(** The sample at place [i] exists and is at or below the threshold. *)
Definition below_at (i : nat) : Prop :=
  exists v, nth_error (values signal) i = Some v /\ above self v = false.

(** The scan may start a run at place [i]: nothing above the threshold
    reaches into it from the left. *)
Definition run_start (i : nat) : Prop :=
  i = 0 \/ below_at (i - 1).

(** Where the inner loop of [trigger] stops, and why. *)
Lemma trigger_run_stops (fuel i : nat) :
  length (values signal) = imax ->
  fuel <> 0 -> imax <= fuel + i -> i < imax ->
  exists e,
    trigger_run self signal imax fuel i = Ok e /\
    i <= e < imax /\
    stretch signal (above self) true i (e - i) /\
    (e = imax - 1 \/ below_at e).
Proof.
  intros Hlen. revert i.
  induction fuel as [|fuel IH]; intros i Hf Hle Hi; [easy|].
  simpl. destruct (i <? imax - 1) eqn:E.
  - apply Nat.ltb_lt in E.
    destruct (nth_error (values signal) i) as [v|] eqn:Ev.
    2:{ apply nth_error_None in Ev. lia. }
    unfold index. rewrite Ev. simpl.
    destruct (s_gtb v (trigger_threshold self)) eqn:Eg.
    + destruct (IH (S i)) as (e & He & Hb & Hs & Hstop); [lia..|].
      exists e. split; [exact He|]. split; [lia|]. split; [|exact Hstop].
      intros m Hm. destruct (Nat.eq_dec m i) as [->|Hne].
      * now exists v.
      * apply Hs. lia.
    + exists i. split; [reflexivity|]. split; [lia|]. split.
      * intros m Hm. lia.
      * right. now exists v.
  - apply Nat.ltb_ge in E. exists i. split; [reflexivity|].
    split; [lia|]. split; [intros m Hm; lia | left; lia].
Qed.

Lemma trigger_scan_unfold (fuel i : nat) :
  trigger_scan self signal imax (S fuel) i =
  if i <? imax then
    e <- trigger_run self signal imax imax i ;;
    if negb (e =? i) then
      ti <- index (times signal) e ;;
      tj <- index (times signal) i ;;
      if s_gtb (s_sub ti tj) (time_over_threshold self) then Ok true
      else trigger_scan self signal imax fuel (S e)
    else trigger_scan self signal imax fuel (S e)
  else Ok false.
Proof. reflexivity. Qed.

(** The run measured by the scan that makes it return true. *)
Definition firing_run (j e : nat) : Prop :=
  j < e < imax /\
  stretch signal (above self) true j (e - j) /\
  exists tj te,
    nth_error (times signal) j = Some tj /\
    nth_error (times signal) e = Some te /\
    s_gtb (s_sub te tj) (time_over_threshold self) = true.

Lemma trigger_scan_sound (fuel i : nat) :
  length (values signal) = imax ->
  trigger_scan self signal imax fuel i = Ok true ->
  exists j e, i <= j /\ firing_run j e.
Proof.
  intros Hlen. revert i.
  induction fuel as [|fuel IH]; intros i Hs; [discriminate|].
  rewrite trigger_scan_unfold in Hs.
  destruct (i <? imax) eqn:E; [|discriminate].
  apply Nat.ltb_lt in E.
  destruct (trigger_run_stops imax i Hlen) as (e & He & Hb & Hst & _);
    [lia..|].
  rewrite He in Hs. simpl bind in Hs.
  assert (Hrec : trigger_scan self signal imax fuel (S e) = Ok true ->
                 exists j e0, i <= j /\ firing_run j e0).
  { intros Hr. destruct (IH _ Hr) as (j & e0 & Hj & Hfr).
    exists j, e0. split; [lia | exact Hfr]. }
  destruct (e =? i) eqn:Eei; simpl negb in Hs; cbv iota in Hs;
    [now apply Hrec|].
  apply Nat.eqb_neq in Eei.
  unfold index in Hs.
  destruct (nth_error (times signal) e) as [te|] eqn:Ee; [|discriminate].
  destruct (nth_error (times signal) i) as [ti|] eqn:Ei; [|discriminate].
  simpl in Hs.
  destruct (s_gtb (s_sub te ti) (time_over_threshold self)) eqn:Eg;
    [|now apply Hrec].
  exists i, e. split; [lia|]. split; [lia|]. split; [exact Hst|].
  now exists ti, te.
Qed.

(** X2: [trigger] returns true only for a waveform with a run of
    consecutive samples above the threshold, from place [j] up to but not
    including place [e], such that the time between the samples at [j] and
    [e] exceeds the minimum time over threshold. *)
Theorem trigger_fires_only_on_run :
  length (values signal) = length (times signal) ->
  trigger self signal = Ok true ->
  exists j e, firing_run j e.
Proof.
  intros Hlen Ht. unfold trigger in Ht.
  destruct (trigger_scan_sound _ _ Hlen Ht) as (j & e & _ & Hfr).
  now exists j, e.
Qed.

(** X3: a waveform with no sample above the threshold never triggers,
    whatever its time axis and the minimum time over threshold. *)
Theorem trigger_quiet_signal :
  length (values signal) = length (times signal) ->
  Forall (fun v => above self v = false) (values signal) ->
  trigger self signal = Ok false.
Proof.
  intros Hlen Hall.
  unfold trigger.
  destruct (trigger_scan_returns self signal (S imax) 0 Hlen)
    as [[|] Hb]; [lia | lia | | exact Hb].
  exfalso.
  destruct (trigger_scan_sound _ _ Hlen Hb)
    as (j & e & _ & (Hje & Hst & _)).
  destruct (Hst j) as (v & Hv & Ha); [lia|].
  apply nth_error_In in Hv. rewrite Forall_forall in Hall.
  rewrite (Hall v Hv) in Ha. discriminate.
Qed.

Lemma trigger_scan_complete (j k : nat) :
  length (values signal) = imax ->
  run_start j ->
  stretch signal (above self) true j k ->
  j + k = imax \/ below_at (j + k) ->
  let e := Nat.min (j + k) (imax - 1) in
  j < e ->
  (exists tj te,
     nth_error (times signal) j = Some tj /\
     nth_error (times signal) e = Some te /\
     s_gtb (s_sub te tj) (time_over_threshold self) = true) ->
  forall fuel i,
    i <= j -> S imax <= fuel + i -> run_start i ->
    trigger_scan self signal imax fuel i = Ok true.
Proof.
  intros Hlen Hstart Hrun Hend e Hje (tj & te & Htj & Hte & Hg).
  assert (Hjlt : j < imax) by (unfold e in Hje; lia).
  induction fuel as [|fuel IH]; intros i Hij Hfuel Hi; [lia|].
  rewrite trigger_scan_unfold.
  assert (E : (i <? imax) = true) by (apply Nat.ltb_lt; lia).
  rewrite E.
  destruct (trigger_run_stops imax i Hlen) as (e' & He' & Hb & Hst & Hstop);
    [lia..|].
  rewrite He'. simpl bind.
  destruct (Nat.eq_dec i j) as [->|Hne].
  - assert (Hee : e' = e).
    { unfold e. destruct Hend as [Hend|(v & Hv & Hbelow)].
      - destruct Hstop as [Hstop|(v & Hv & Hbelow)]; [lia|].
        destruct (Hrun e') as (v' & Hv' & Ha); [lia|].
        congruence.
      - assert (Hjk : j + k < imax).
        { rewrite <- Hlen. apply nth_error_Some. congruence. }
        assert (Hle : e' <= j + k).
        { destruct (Nat.le_gt_cases e' (j + k)) as [H|H]; [exact H|].
          destruct (Hst (j + k)) as (v' & Hv' & Ha); [lia|]. congruence. }
        destruct Hstop as [Hstop|(v' & Hv' & Hbelow')]; [lia|].
        destruct (Nat.eq_dec e' (j + k)) as [->|Hn]; [lia|].
        destruct (Hrun e') as (v'' & Hv'' & Ha); [lia|]. congruence. }
    rewrite Hee.
    assert (Eej : (e =? j) = false) by (apply Nat.eqb_neq; lia).
    rewrite Eej. simpl negb. cbv iota.
    unfold index. rewrite Hte, Htj. simpl. now rewrite Hg.
  - assert (He'j : e' < j).
    { destruct (Nat.lt_ge_cases e' j) as [H|H]; [exact H|].
      destruct Hstart as [->|(v & Hv & Hbelow)]; [lia|].
      destruct (Hst (j - 1)) as (v' & Hv' & Ha); [lia|]. congruence. }
    assert (Hnext : trigger_scan self signal imax fuel (S e') = Ok true).
    { apply IH; [lia | lia |]. right.
      replace (S e' - 1) with e' by lia.
      destruct Hstop as [Hstop|Hstop]; [lia | exact Hstop]. }
    destruct (negb (e' =? i)); [|exact Hnext].
    unfold index.
    destruct (nth_error (times signal) e') as [t1|] eqn:E1.
    2:{ apply nth_error_None in E1. fold imax in E1. lia. }
    destruct (nth_error (times signal) i) as [t2|] eqn:E2.
    2:{ apply nth_error_None in E2. fold imax in E2. lia. }
    simpl.
    match goal with
    | |- context [s_gtb ?a ?b] => destruct (s_gtb a b)
    end; [reflexivity | exact Hnext].
Qed.

(** X4: [trigger] returns true as soon as some run qualifies, whatever
    comes before and after it: a run of [k] samples above the threshold
    that starts at place [j] (at the first sample or after a sample at or
    below the threshold) and ends at the last sample or before a sample at
    or below the threshold, measured to that sample (to the last sample
    when the run lasts that long), with a measured time above the minimum
    time over threshold. *)
Theorem trigger_fires_on_run (j k : nat) :
  length (values signal) = length (times signal) ->
  run_start j ->
  stretch signal (above self) true j k ->
  j + k = length (times signal) \/ below_at (j + k) ->
  let e := Nat.min (j + k) (length (times signal) - 1) in
  j < e ->
  (exists tj te,
     nth_error (times signal) j = Some tj /\
     nth_error (times signal) e = Some te /\
     s_gtb (s_sub te tj) (time_over_threshold self) = true) ->
  trigger self signal = Ok true.
Proof.
  intros Hlen Hstart Hrun Hend e Hje Htimes.
  unfold trigger.
  apply (trigger_scan_complete j k Hlen Hstart Hrun Hend Hje Htimes);
    [lia | lia | now left].
Qed.

End TriggerRuns.

(** Two runs: one sample at place 1, three samples from place 3. *)
Definition wave_two_runs : Signal Z :=
  mkSignal [0; 1; 2; 3; 4; 5; 6]%Z [0; 5; 0; 5; 5; 5; 0]%Z voltage.

(** Nothing above the threshold 1. *)
Definition wave_quiet : Signal Z :=
  mkSignal [0; 1; 2]%Z [0; 1; -4]%Z voltage.

Lemma trigger_fires_only_on_run_witness :
  exists j e, firing_run trigger_bench wave_final_run j e.
Proof.
  exact (trigger_fires_only_on_run trigger_bench wave_final_run
           eq_refl eq_refl).
Defined.

Lemma trigger_quiet_signal_witness :
  trigger trigger_bench wave_quiet = Ok false.
Proof.
  apply trigger_quiet_signal; [reflexivity | repeat constructor].
Defined.

Lemma trigger_fires_on_run_witness :
  trigger patient_trigger_bench wave_two_runs = Ok true.
Proof.
  apply (trigger_fires_on_run patient_trigger_bench wave_two_runs 3 3).
  - reflexivity.
  - right. now exists 0%Z.
  - intros m Hm.
    assert (Hc : m = 3 \/ m = 4 \/ m = 5) by lia.
    destruct Hc as [-> | [-> | ->]]; now exists 5%Z.
  - right. now exists 0%Z.
  - simpl. lia.
  - now exists 3%Z, 6%Z.
Defined.

(** ** The spice branch and the clip *)

Section SpiceFacts.
Context {num : Type} {SC : Scalar num} {FE : Frontends num}.

Variable self : IREXAntennaSystem num.
Variable signal : Signal num.

Lemma match_circuit_key_registered (circuits : list (string * Circuit))
  (method : string) (c : Circuit) :
  match_circuit_key circuits method = Some c ->
  exists key, In (key, c) circuits /\ str_in key method = true.
Proof.
  induction circuits as [|[k v] rest IH]; simpl; [discriminate|].
  destruct (str_in k method) eqn:E.
  - intros [= ->]. exists k. split; [now left | exact E].
  - intros Hm. destruct (IH Hm) as (key & Hin & Hk).
    exists key. split; [now right | exact Hk].
Qed.

Lemma circuit_getitem_registered (circuits : list (string * Circuit))
  (key : string) (c : Circuit) :
  circuit_getitem circuits key = Ok c -> In (key, c) circuits.
Proof.
  induction circuits as [|[k v] rest IH]; simpl; [discriminate|].
  destruct (String.eqb k key) eqn:E.
  - apply String.eqb_eq in E. intros [= ->]. left. now rewrite E.
  - intros Hg. right. now apply IH.
Qed.

Lemma circuit_getitem_missing (circuits : list (string * Circuit))
  (key : string) :
  Forall (fun kv => fst kv <> key) circuits ->
  circuit_getitem circuits key = Raise (KeyError key).
Proof.
  induction 1 as [|[k v] rest Hk _ IH]; simpl; [reflexivity|].
  simpl in Hk. apply String.eqb_neq in Hk. now rewrite Hk.
Qed.

Lemma match_circuit_key_none (circuits : list (string * Circuit))
  (method : string) :
  Forall (fun kv => str_in (fst kv) method = false) circuits ->
  match_circuit_key circuits method = None.
Proof.
  induction 1 as [|[k v] rest Hk _ IH]; simpl; [reflexivity|].
  simpl in Hk. now rewrite Hk.
Qed.

Lemma select_circuit_registered (method : string) (c : Circuit) :
  select_circuit method = Ok (Some c) ->
  exists key, In (key, c) spice_circuits.
Proof.
  unfold select_circuit.
  destruct (match_circuit_key spice_circuits method) as [c'|] eqn:Em.
  - intros [= ->].
    destruct (match_circuit_key_registered _ _ _ Em) as (key & Hin & _).
    now exists key.
  - repeat match goal with
           | |- (if ?b then _ else _) = _ -> _ => destruct b
           | |- bind (circuit_getitem ?l ?k) _ = _ -> _ =>
               let E := fresh "E" in
               destruct (circuit_getitem l k) eqn:E; simpl
           end; try discriminate.
    all: intros [= ->]; eexists; eapply circuit_getitem_registered;
      eassumption.
Qed.

(** X5: [make_envelope] runs a transient simulation only on a method of
    the spice family other than the bare ["spice"], with PySpice available,
    and only on a circuit of the registry; the simulator input is built
    first, then the simulator, then the run, and the call returns a
    waveform with the time axis and the tag of the signal it was given. *)
Theorem transient_run_conditions (events : list SpiceEvent)
  (r : outcome (Signal num)) (c : Circuit) (step_time end_time : num) :
  make_envelope self signal = (events, r) ->
  In (TransientRun c step_time end_time) events ->
  pyspice_available = true /\
  reaches_spice (envelope_method self) = true /\
  envelope_method self <> "spice" /\
  (exists key, In (key, c) spice_circuits) /\
  (exists copy,
     events = [SpiceSignalBuilt copy; SimulatorBuilt c;
               TransientRun c step_time end_time]) /\
  exists out, r = Ok out /\ times out = times signal /\
              value_type out = value_type signal.
Proof.
  unfold make_envelope, reaches_spice. intros Hm Hin.
  destruct (str_in "hilbert" (envelope_method self));
    [injection Hm as <- <-; destruct Hin|].
  destruct (str_in "analytic" (envelope_method self)).
  { destruct (_ || _); injection Hm as <- <-; destruct Hin. }
  destruct (str_in "spice" (envelope_method self));
    [|injection Hm as <- <-; destruct Hin].
  destruct pyspice_available; simpl in Hm;
    [|injection Hm as <- <-; destruct Hin].
  destruct (String.eqb (envelope_method self) "spice") eqn:Es;
    [injection Hm as <- <-; destruct Hin|].
  apply String.eqb_neq in Es.
  destruct (times signal) as [|t0 t]; [injection Hm as <- <-; destruct Hin|].
  destruct (select_circuit (envelope_method self)) as [[c'|]|e|] eqn:Ec;
    injection Hm as <- <-; simpl in Hin;
    try (destruct Hin as [Hin|[]]; discriminate).
  destruct Hin as [Hin|[Hin|[Hin|[]]]]; try discriminate.
  injection Hin as -> -> ->.
  repeat split; try assumption.
  - now apply (select_circuit_registered _ _ Ec).
  - eexists. reflexivity.
  - eexists. repeat split.
Qed.

(** X6: a key of the circuit registry that occurs in the method string
    takes precedence over the manual names ("simple", "log amp",
    "rectifier"), and among several such keys the first one in the order of
    the registry is used. *)
Theorem registry_key_precedes_aliases (method key : string) (c : Circuit)
  (before after : list (string * Circuit)) :
  spice_circuits = before ++ (key, c) :: after ->
  Forall (fun kv => str_in (fst kv) method = false) before ->
  str_in key method = true ->
  select_circuit method = Ok (Some c).
Proof.
  intros Hreg Hbefore Hkey. unfold select_circuit. rewrite Hreg.
  assert (Hm : match_circuit_key (before ++ (key, c) :: after) method
               = Some c).
  { clear Hreg. induction Hbefore as [|[k v] rest Hk _ IH]; simpl.
    - now rewrite Hkey.
    - simpl in Hk. now rewrite Hk. }
  now rewrite Hm.
Qed.

(** X7: a method that names the simple circuit only by the manual name
    ["simple"] needs the registry key ["basic"]: when the registry has no
    such key, [make_envelope] raises [KeyError], after the simulator input
    was built and before any simulator is. *)
Theorem simple_alias_needs_basic_key (t0 : num) (t : list num) :
  reaches_spice (envelope_method self) = true ->
  pyspice_available = true ->
  envelope_method self <> "spice" ->
  times signal = t0 :: t ->
  Forall (fun kv => str_in (fst kv) (envelope_method self) = false)
         spice_circuits ->
  str_in "simple" (envelope_method self) = true ->
  Forall (fun kv => fst kv <> "basic") spice_circuits ->
  make_envelope self signal =
  ([SpiceSignalBuilt
      (mkSignal (map (fun x => s_sub x t0) (t0 :: t)) (values signal)
                default_value_type)],
   Raise (KeyError "basic")).
Proof.
  intros Hr Ha Hne Ht Hnokey Hsimple Hnobasic.
  unfold reaches_spice in Hr.
  apply andb_true_iff in Hr as [Hr Hs].
  apply andb_true_iff in Hr as [Hh Han].
  apply negb_true_iff in Hh, Han.
  apply String.eqb_neq in Hne.
  unfold make_envelope. rewrite Hh, Han, Hs, Ha, Hne, Ht. simpl negb.
  cbv iota.
  unfold select_circuit.
  rewrite (match_circuit_key_none _ _ Hnokey), Hsimple.
  now rewrite (circuit_getitem_missing _ _ Hnobasic).
Qed.

(** X8: whenever [make_envelope] returns a waveform from its Hilbert or
    its spice branch, the waveform has the time axis and the value-type tag
    of the signal it was given. *)
Theorem make_envelope_keeps_times_and_tag (events : list SpiceEvent)
  (out : Signal num) :
  make_envelope self signal = (events, Ok out) ->
  str_in "hilbert" (envelope_method self) = true \/
  str_in "analytic" (envelope_method self) = false ->
  times out = times signal /\ value_type out = value_type signal.
Proof.
  unfold make_envelope. intros Hm Hb.
  destruct (str_in "hilbert" (envelope_method self)).
  - injection Hm as _ <-. now split.
  - destruct Hb as [Hb|Hb]; [discriminate|]. rewrite Hb in Hm.
    destruct (str_in "spice" (envelope_method self)); [|discriminate].
    destruct (negb pyspice_available); [discriminate|].
    destruct (String.eqb _ _); [discriminate|].
    destruct (times signal) as [|t0 t]; [discriminate|].
    destruct (select_circuit _) as [[c|]|e|]; try discriminate.
    injection Hm as _ <-. now split.
Qed.

(** X9: [np.clip] leaves samples that already lie between the bounds as
    they are, so clipping twice is clipping once. *)
Theorem np_clip_fixes_range (a : list num) (lo hi : num) :
  (forall x y : num, s_gtb x y = true -> s_gtb y x = false) ->
  (forall x y : num, s_gtb x y = false -> s_gtb y x = false -> x = y) ->
  s_gtb lo hi = false ->
  (Forall (within lo hi) a -> np_clip a lo hi = a) /\
  np_clip (np_clip a lo hi) lo hi = np_clip a lo hi.
Proof.
  intros Hasym Htot Hle.
  assert (Hfix : forall l, Forall (within lo hi) l -> np_clip l lo hi = l).
  { induction 1 as [|v l [Hlo Hhi] _ IH]; [reflexivity|].
    unfold np_clip in *. cbn [map]. f_equal; [|exact IH].
    unfold np_minimum, np_maximum. rewrite Hlo.
    destruct (s_gtb hi v) eqn:E; [reflexivity|].
    now apply Htot. }
  split; [apply Hfix|].
  apply Hfix. now apply np_clip_within.
Qed.

End SpiceFacts.

(** A registry without the key ["basic"]. *)
Definition Z_bench_without_basic : Frontends Z := {|
  default_value_type := undefined;
  envelope := fun s => map Z.abs (values s);
  basic_envelope_model := fun s => s;
  pyspice_available := true;
  pyspice_modulenotfound := "No module named 'PySpice'";
  Circuit := string;
  spice_circuits := [("logamp", "logamp"); ("bridge", "bridge")]%string;
  signal_dt := fun s => 1%Z;
  transient_output := fun _ copy _ _ => values copy;
  with_times := fun s t => mkSignal t (values s) (value_type s);
  signal_add := fun a b =>
    mkSignal (times a) (map (fun p => (fst p + snd p)%Z)
                            (combine (values a) (values b)))
             (value_type a);
  NoiseState := nat;
  make_noise := fun st t => (mkSignal t (map (fun _ => 0%Z) t) voltage, S st);
  antenna_full_waveform := fun st _ t =>
    (mkSignal t (map (fun _ => 0%Z) t) voltage, S st);
  antenna_response := fun s _ _ => mkSignal (times s) (values s) voltage
|}.

Definition simple_spice_bench
  : IREXAntennaSystem (FE := Z_bench_without_basic) Z :=
  bench_system (FE := Z_bench_without_basic) 0%nat 0%Z 1%Z 0%Z 2%Z 3%Z
               "spice simple".

(** The manual name and a registry key in one method string. *)
Definition simple_logamp_bench : IREXAntennaSystem Z :=
  bench_system (num := Z) 0%nat 0%Z 1%Z 0%Z 2%Z 3%Z "spice simple logamp".

Lemma transient_run_conditions_witness :
  @pyspice_available Z Z_bench = true /\
  (exists key, In (key, "logamp") (@spice_circuits Z Z_bench)) /\
  exists out,
    snd (make_envelope simple_logamp_bench voltage_pulse) = Ok out /\
    times out = times voltage_pulse /\
    value_type out = value_type voltage_pulse.
Proof.
  destruct (transient_run_conditions simple_logamp_bench voltage_pulse
              _ _ "logamp" 1%Z 4%Z eq_refl)
    as (H1 & _ & _ & H4 & _ & H6).
  - right. right. left. reflexivity.
  - split; [exact H1|]. split; [exact H4 | exact H6].
Defined.

Lemma registry_key_precedes_aliases_witness :
  select_circuit (FE := Z_bench) "spice simple logamp" = Ok (Some "logamp").
Proof.
  refine (registry_key_precedes_aliases "spice simple logamp" "logamp"
            "logamp" [("basic", "basic")] [("bridge", "bridge")]
            eq_refl _ eq_refl).
  repeat constructor.
Defined.

Lemma simple_alias_needs_basic_key_witness :
  make_envelope simple_spice_bench voltage_pulse =
  ([SpiceSignalBuilt (mkSignal [0; 1; 2; 3; 4]%Z [0; 1; -2; 1; 0]%Z
                               undefined)],
   Raise (KeyError "basic")).
Proof.
  refine (simple_alias_needs_basic_key simple_spice_bench voltage_pulse
            0%Z [1; 2; 3; 4]%Z eq_refl eq_refl _ eq_refl _ eq_refl _).
  - discriminate.
  - repeat constructor.
  - repeat constructor; discriminate.
Defined.

Lemma make_envelope_keeps_times_and_tag_witness :
  times (mkSignal [0; 1; 2; 3; 4]%Z [0; 1; 2; 1; 0]%Z voltage) =
    times voltage_pulse /\
  value_type (mkSignal [0; 1; 2; 3; 4]%Z [0; 1; 2; 1; 0]%Z voltage) =
    value_type voltage_pulse.
Proof.
  exact (make_envelope_keeps_times_and_tag hilbert_bench voltage_pulse
           [] _ eq_refl (or_introl eq_refl)).
Defined.

Lemma np_clip_fixes_range_witness :
  (Forall (within (-3)%Z 3%Z) [0; 2; -3]%Z ->
   np_clip [0; 2; -3]%Z (-3)%Z 3%Z = [0; 2; -3]%Z) /\
  np_clip (np_clip [0; 2; -3]%Z (-3)%Z 3%Z) (-3)%Z 3%Z =
  np_clip [0; 2; -3]%Z (-3)%Z 3%Z.
Proof.
  refine (np_clip_fixes_range [0; 2; -3]%Z (-3)%Z 3%Z _ _ eq_refl).
  - intros x y Hxy. apply Z.gtb_lt in Hxy.
    change (s_gtb y x) with (y >? x)%Z.
    rewrite Z.gtb_ltb. apply Z.ltb_ge. lia.
  - intros x y Hxy Hyx.
    change (s_gtb x y) with (x >? y)%Z in Hxy.
    change (s_gtb y x) with (y >? x)%Z in Hyx.
    rewrite Z.gtb_ltb in Hxy, Hyx. apply Z.ltb_ge in Hxy, Hyx. lia.
Defined.

(** ** More on the waveform cache *)

Section CacheErrors.
Context {num : Type} {SC : Scalar num} {FE : Frontends num}.

(** What the loop of [all_waveforms] leaves alone, in any state and
    whatever its outcome. *)
Lemma all_waveforms_loop_frame (fuel : nat) :
  forall self self' r,
    all_waveforms_loop fuel self = (self', r) ->
    (exists added, _all_waveforms self' = _all_waveforms self ++ added) /\
    antenna_signals self' = antenna_signals self /\
    same_config self self' /\
    name self' = name self /\ position self' = position self /\
    trigger_threshold self' = trigger_threshold self /\
    time_over_threshold self' = time_over_threshold self.
Proof.
  induction fuel as [|fuel IH]; intros self self' r Hloop.
  - injection Hloop as <- <-.
    split; [now exists []; rewrite app_nil_r|]. now repeat split.
  - simpl in Hloop.
    destruct (_ <? _).
    2:{ injection Hloop as <- <-.
        split; [now exists []; rewrite app_nil_r|]. now repeat split. }
    destruct (index _ _) as [signal|e|].
    2,3: injection Hloop as <- <-;
      (split; [now exists []; rewrite app_nil_r|]); now repeat split.
    destruct (times signal) as [|t0 t1].
    { injection Hloop as <- <-.
      split; [now exists []; rewrite app_nil_r|]. now repeat split. }
    destruct (make_noise _ _) as [long_noise noise'].
    destruct (snd (front_end _ _)) as [long_waveform|e|].
    2,3: injection Hloop as <- <-;
      (split; [now exists []; rewrite app_nil_r|]); now repeat split.
    destruct (IH _ _ _ Hloop)
      as ((added & Ha) & Hs & (C1 & C2 & C3) & Hn & Hp & Ht & Hto).
    split.
    { exists (with_times long_waveform (t0 :: t1) :: added).
      rewrite Ha. cbn. now rewrite <- app_assoc. }
    now repeat split.
Qed.

(** X10: an access of [all_waveforms] only ever appends to the cache: the
    waveforms stored before are still there, in place and unchanged, and
    the raw signals and the settings of the antenna system are untouched,
    also when the access raises. *)
Theorem all_waveforms_appends (self self' : IREXAntennaSystem num)
  (r : outcome (list (Signal num))) :
  all_waveforms self = (self', r) ->
  (exists added, _all_waveforms self' = _all_waveforms self ++ added) /\
  antenna_signals self' = antenna_signals self /\
  same_config self self' /\
  trigger_threshold self' = trigger_threshold self /\
  time_over_threshold self' = time_over_threshold self.
Proof.
  unfold all_waveforms. intros Ha.
  destruct (all_waveforms_loop _ self) as [self0 r0] eqn:Hloop.
  injection Ha as <- <-.
  destruct (all_waveforms_loop_frame _ _ _ _ Hloop)
    as (Hadd & Hs & Hc & _ & _ & Ht & Hto).
  split; [exact Hadd|]. split; [exact Hs|]. split; [exact Hc|].
  split; assumption.
Qed.

(** X11: a configuration error surfaces only when there is a raw signal to
    process.  With the cache as long as the raw-signal list an access
    returns the cache whatever the envelope method; with a raw signal
    pending for which the front end raises, the access raises that error,
    the cache is left as it was, and the noise drawn for the signal is
    spent. *)
Theorem envelope_errors_surface_lazily (self : IREXAntennaSystem num) :
  (length (_all_waveforms self) = length (antenna_signals self) ->
   all_waveforms self = (self, Ok (_all_waveforms self))) /\
  (forall signal t0 t1 long_noise noise' e,
     nth_error (antenna_signals self) (length (_all_waveforms self))
       = Some signal ->
     times signal = t0 :: t1 ->
     make_noise (antenna_noise self) (lead_in t0 t1) = (long_noise, noise') ->
     snd (front_end self
            (signal_add (with_times signal (lead_in t0 t1)) long_noise))
       = Raise e ->
     all_waveforms self = (set_antenna_noise self noise', Raise e)).
Proof.
  split; [apply all_waveforms_settled|].
  intros signal t0 t1 long_noise noise' e Hn Ht Hnoise Hf.
  assert (Hlt : length (_all_waveforms self) < length (antenna_signals self)).
  { apply nth_error_Some. congruence. }
  unfold all_waveforms. cbn [all_waveforms_loop].
  apply Nat.ltb_lt in Hlt. rewrite Hlt.
  unfold index. rewrite Hn, Ht.
  unfold lead_in in Hnoise, Hf. rewrite Hnoise.
  cbv zeta.
  change (front_end (set_antenna_noise self noise')) with (front_end self).
  now rewrite Hf.
Qed.

Lemma receive_all_frame (calls : list (Signal num * list num * list num)) :
  forall self,
    _all_waveforms (receive_all self calls) = _all_waveforms self /\
    exists more,
      antenna_signals (receive_all self calls) = antenna_signals self ++ more.
Proof.
  unfold receive_all.
  induction calls as [|c calls IH]; intros self; simpl.
  - split; [reflexivity|]. exists []. now rewrite app_nil_r.
  - destruct (IH (receive self (fst (fst c)) (snd (fst c)) (snd c)))
      as [Hw [more Hm]].
    split; [exact Hw|].
    eexists. rewrite Hm. unfold receive. cbn.
    rewrite <- app_assoc. reflexivity.
Qed.

(** X12: a raw signal with no samples wedges the cache.  When the first
    raw signal the cache does not cover has an empty time axis, every
    access raises [IndexError] and changes nothing, and it goes on doing so
    however many signals are received afterwards. *)
Theorem empty_signal_wedges_cache (self : IREXAntennaSystem num)
  (signal : Signal num)
  (calls : list (Signal num * list num * list num)) :
  nth_error (antenna_signals self) (length (_all_waveforms self))
    = Some signal ->
  times signal = [] ->
  all_waveforms (receive_all self calls) =
  (receive_all self calls, Raise IndexError).
Proof.
  intros Hn Ht.
  destruct (receive_all_frame calls self) as [Hw [more Hm]].
  assert (Hlt : length (_all_waveforms self) < length (antenna_signals self)).
  { apply nth_error_Some. congruence. }
  unfold all_waveforms. cbn [all_waveforms_loop].
  rewrite Hw, Hm.
  assert (E : (length (_all_waveforms self) <?
               length (antenna_signals self ++ more)) = true).
  { apply Nat.ltb_lt. rewrite length_app. lia. }
  rewrite E. unfold index.
  rewrite nth_error_app1 by exact Hlt.
  now rewrite Hn, Ht.
Qed.

(** X13: [full_waveform] works beside the cache: it leaves the cache, the
    raw signals and the settings as they are, and for an empty time axis it
    raises [IndexError] without asking the antenna for anything. *)
Theorem full_waveform_beside_cache (self self' : IREXAntennaSystem num)
  (times_ : list num) (r : outcome (Signal num)) :
  full_waveform self times_ = (self', r) ->
  _all_waveforms self' = _all_waveforms self /\
  antenna_signals self' = antenna_signals self /\
  same_config self self' /\
  (times_ = [] -> self' = self /\ r = Raise IndexError).
Proof.
  unfold full_waveform. intros Hf.
  destruct times_ as [|t0 t1].
  - injection Hf as <- <-. now repeat split.
  - destruct (antenna_full_waveform _ _ _) as [pre noise'].
    injection Hf as <- _. now repeat split.
Qed.

End CacheErrors.

(** An antenna system whose envelope method nothing matches. *)
Definition unknown_method_received : IREXAntennaSystem Z :=
  receive unknown_method_bench voltage_pulse [0; 0; 0]%Z [0; 0; 1]%Z.

(** A signal with no samples. *)
Definition empty_pulse : Signal Z := mkSignal [] [] voltage.

Definition wedged_bench : IREXAntennaSystem Z :=
  receive hilbert_bench empty_pulse [0; 0; 0]%Z [0; 0; 1]%Z.

Lemma all_waveforms_appends_witness :
  (exists added,
     _all_waveforms (fst (all_waveforms (receive_all hilbert_bench two_calls)))
     = _all_waveforms (receive_all hilbert_bench two_calls) ++ added) /\
  antenna_signals (fst (all_waveforms (receive_all hilbert_bench two_calls)))
  = antenna_signals (receive_all hilbert_bench two_calls).
Proof.
  destruct (all_waveforms_appends (receive_all hilbert_bench two_calls)
              _ _ eq_refl) as (Ha & Hs & _).
  split; [exact Ha | exact Hs].
Defined.

Lemma envelope_errors_surface_lazily_witness :
  all_waveforms unknown_method_bench = (unknown_method_bench, Ok []) /\
  all_waveforms unknown_method_received =
  (set_antenna_noise unknown_method_received 1%nat,
   Raise (ValueError "No envelope method matching 'envelope'")).
Proof.
  split.
  - exact (proj1 (envelope_errors_surface_lazily unknown_method_bench)
                 eq_refl).
  - exact (proj2 (envelope_errors_surface_lazily unknown_method_received)
                 _ _ _ _ _ _ eq_refl eq_refl eq_refl eq_refl).
Defined.

Lemma empty_signal_wedges_cache_witness :
  all_waveforms (receive_all wedged_bench two_calls) =
  (receive_all wedged_bench two_calls, Raise IndexError).
Proof.
  exact (empty_signal_wedges_cache wedged_bench _ two_calls
           eq_refl eq_refl).
Defined.

Lemma full_waveform_beside_cache_witness :
  _all_waveforms (fst (full_waveform hilbert_bench [0; 1; 2]%Z)) =
    _all_waveforms hilbert_bench /\
  antenna_signals (fst (full_waveform hilbert_bench [0; 1; 2]%Z)) =
    antenna_signals hilbert_bench.
Proof.
  destruct (full_waveform_beside_cache hilbert_bench _ [0; 1; 2]%Z _ eq_refl)
    as (Hw & Hs & _).
  split; [exact Hw | exact Hs].
Defined.

(** ** More on the event kernel *)

Section KernelEffects.
Context {num : Type} {SC : Scalar num} {FL : Floating num} {LM : Libm num}
        {FE : Frontends num} {KE : KernelEnv num}.

(** What the kernel does for the paths [paths] of antenna [i], in order:
    pulse, propagation and delivery for every path it does not skip. *)
Definition path_effects (p : Particle num) (i : nat)
  (paths : list (PathKind * RayPath num)) : list (KernelEffect num) :=
  flat_map (fun kp =>
              if delivers p (snd kp)
              then [AskaryanBuilt i (fst kp) (psi p (snd kp));
                    PropagateCalled i (fst kp); ReceiveCalled i (fst kp)]
              else [])
           paths.

(** The same for the antennas of an array, from place [i] on. *)
Fixpoint array_effects (p : Particle num) (i : nat)
  (ant_array : list (IREXAntennaSystem num)) : list (KernelEffect num) :=
  match ant_array with
  | [] => []
  | ant :: rest =>
      path_effects p i (paths_to p ant) ++ array_effects p (S i) rest
  end.

(** The raw signals an antenna stores for the paths the kernel does not
    skip, in order: the response of the antenna to the pulse of each path,
    arriving from the vertex with the polarization of the path. *)
Definition deliveries (p : Particle num) (n : num)
  (paths : list (PathKind * RayPath num)) : list (Signal num) :=
  map (fun kp =>
         antenna_response (pulse_for p n (snd kp)) (vertex p)
           (epol (received_ray (snd kp)) (direction p)))
      (filter (fun kp => delivers p (snd kp)) paths).

(** The antenna [ant] with the raw signals [added] behind those it has,
    and nothing else changed. *)
Definition grown_by (added : list (Signal num))
  (ant : IREXAntennaSystem num) : IREXAntennaSystem num :=
  set_antenna_signals ant (antenna_signals ant ++ added).

Lemma grown_by_nil (ant : IREXAntennaSystem num) : grown_by [] ant = ant.
Proof.
  unfold grown_by, set_antenna_signals. rewrite app_nil_r.
  now destruct ant.
Qed.

Lemma grown_by_app (l1 l2 : list (Signal num))
  (ant : IREXAntennaSystem num) :
  grown_by l2 (grown_by l1 ant) = grown_by (l1 ++ l2) ant.
Proof.
  unfold grown_by, set_antenna_signals. cbn. now rewrite app_assoc.
Qed.

Lemma event_path_exact (p : Particle num) (n : num) (i : nat)
  (ant : IREXAntennaSystem num) (log : list (KernelEffect num))
  (kp : PathKind * RayPath num) :
  event_path p n i (ant, log) kp =
  (grown_by (deliveries p n [kp]) ant, log ++ path_effects p i [kp]).
Proof.
  destruct kp as [kind path]. unfold path_effects, deliveries.
  cbn [flat_map filter snd fst]. rewrite app_nil_r.
  destruct (delivers p path) eqn:Hd.
  - unfold delivers in Hd. apply andb_true_iff in Hd as [He Hp].
    apply negb_true_iff in Hp.
    unfold event_path. rewrite He, Hp. reflexivity.
  - rewrite event_path_skips by exact Hd.
    cbn [map]. now rewrite grown_by_nil, app_nil_r.
Qed.

Lemma event_paths_exact (p : Particle num) (n : num) (i : nat)
  (paths : list (PathKind * RayPath num)) :
  forall ant log,
    fold_left (event_path p n i) paths (ant, log) =
    (grown_by (deliveries p n paths) ant, log ++ path_effects p i paths).
Proof.
  induction paths as [|kp paths IH]; intros ant log.
  - cbn. now rewrite grown_by_nil, app_nil_r.
  - cbn [fold_left]. rewrite event_path_exact, IH, grown_by_app.
    rewrite <- app_assoc. f_equal.
    + f_equal. unfold deliveries. cbn [filter].
      destruct (delivers p (snd kp)); cbn [map app]; reflexivity.
    + f_equal. unfold path_effects. cbn [flat_map].
      now rewrite app_nil_r.
Qed.

Lemma event_antennas_exact (p : Particle num) (n : num)
  (ant_array : list (IREXAntennaSystem num)) :
  forall i log,
    event_antennas p n i ant_array log =
    (map (fun ant => grown_by (deliveries p n (paths_to p ant)) ant)
         ant_array,
     log ++ array_effects p i ant_array).
Proof.
  induction ant_array as [|ant rest IH]; intros i log.
  - cbn. now rewrite app_nil_r.
  - cbn [event_antennas array_effects map].
    rewrite event_paths_exact, IH. now rewrite <- app_assoc.
Qed.

(** X17: [event] returns the particle the generator created and handles
    the antennas in the order of the array, for each the direct path and
    then the reflected one, each on its own: a path that exists and whose
    angle does not compare greater than [np.pi/2] gets its pulse built,
    propagated and delivered, any other path gets nothing, and neither
    changes what happens to the other.  Every antenna comes out as it
    was, with the responses to the pulses of its delivered paths behind
    the raw signals it had: each pulse is the Askaryan signal for the
    angle and the index of refraction at the vertex, propagated along the
    path and divided by the path length, and it arrives from the vertex
    with the polarization of the path. *)
Theorem event_handles_paths_independently (gen gen' : Generator)
  (ant_array ants' : list (IREXAntennaSystem num)) (p : Particle num)
  (log : list (KernelEffect num)) :
  event gen ant_array = Ok (p, gen', ants', log) ->
  exists depth,
    index (vertex p) 2 = Ok depth /\
    create_particle gen = (p, gen') /\
    log = array_effects p 0 ant_array /\
    ants' = map (fun ant =>
                   grown_by (deliveries p (ice_index depth) (paths_to p ant))
                            ant)
                ant_array.
Proof.
  unfold event. intros Hev.
  destruct (create_particle gen) as [p0 g0].
  destruct (index (vertex p0) 2) as [depth| |] eqn:Hd; simpl in Hev;
    try discriminate.
  rewrite event_antennas_exact in Hev. simpl in Hev.
  inversion Hev; subst; clear Hev.
  exists depth. now repeat split.
Qed.

End KernelEffects.

Open Scope float_scope.

(** X18: on binary64 a path whose angle is not a number is not skipped.
    [np.arccos] gives not-a-number for a dot product outside [-1, 1],
    which rounding produces for unit vectors, and the comparison of
    not-a-number with [np.pi/2] is false: the pulse is built for the angle
    not-a-number, propagated and delivered. *)
Theorem nan_angle_is_delivered {LM : Libm float} {FE : Frontends float}
  {KE : KernelEnv float} (p : Particle float) (n : float) (i : nat)
  (ant : IREXAntennaSystem float) (log : list (KernelEffect float))
  (kind : PathKind) (path : RayPath float) :
  np_pi = 0x1.921fb54442d18p+1 ->
  exists_ path = true ->
  psi p path = nan ->
  event_path p n i (ant, log) (kind, path) =
  (receive ant (pulse_for p n path) (vertex p)
     (epol (received_ray path) (direction p)),
   log ++ [AskaryanBuilt i kind nan; PropagateCalled i kind;
           ReceiveCalled i kind]).
Proof.
  intros Hpi He Hpsi. unfold event_path. rewrite He. cbn [negb].
  cbv zeta. rewrite Hpsi.
  assert (Hcmp : s_gtb nan half_pi = false).
  { unfold half_pi. rewrite Hpi. vm_compute. reflexivity. }
  now rewrite Hcmp.
Qed.

(** A shower along the diagonal and a ray that leaves the vertex against
    it: the dot product of the two unit vectors is -1.0000000000000002. *)
Definition diagonal_particle : Particle float :=
  mkParticle [0; 0; -100] diagonal 1e9.

Definition against_diagonal : RayPath float :=
  mkRayPath true (map PrimFloat.opp diagonal) [0; 0; -1] 100 (fun s => s).

Lemma event_handles_paths_independently_witness :
  exists depth,
    index (vertex upward_particle) 2 = Ok depth /\
    create_particle (KernelEnv := kernel_bench) 0%nat
      = (upward_particle, 1%nat) /\
    [AskaryanBuilt 0 reflected 0; PropagateCalled 0 reflected;
     ReceiveCalled 0 reflected]
    = array_effects upward_particle 0 [origin_antenna] /\
    [receive origin_antenna (pulse_for upward_particle 1.75 upward_path)
       [0; 0; -100] (epol [0; 0; -1] [0; 0; 1])]
    = map (fun ant =>
             grown_by (deliveries upward_particle (ice_index depth)
                         (paths_to upward_particle ant)) ant)
          [origin_antenna].
Proof.
  exact (event_handles_paths_independently (KE := kernel_bench)
           0%nat 1%nat [origin_antenna] _ upward_particle _ upward_event).
Defined.

Lemma nan_angle_is_delivered_witness :
  vdot diagonal (map PrimFloat.opp diagonal) = -0x1.0000000000001p+0 /\
  event_path (KE := kernel_bench) diagonal_particle 1.75 0
    (origin_antenna, []) (direct, against_diagonal) =
  (receive origin_antenna (pulse_for diagonal_particle 1.75 against_diagonal)
     [0; 0; -100] (epol [0; 0; -1] diagonal),
   [] ++ [AskaryanBuilt 0 direct nan; PropagateCalled 0 direct;
          ReceiveCalled 0 direct]).
Proof.
  split; [vm_compute; reflexivity|].
  apply (nan_angle_is_delivered (KE := kernel_bench)).
  - reflexivity.
  - reflexivity.
  - vm_compute. reflexivity.
Defined.

Close Scope float_scope.

(* ================================================================== *)
(** * The detector layouts

    [IREXGrid], [IREXClusteredGrid] and [IREXCoxeterClusters] of
    [antenna.py].  Counts are Python integers and coordinates are floats;
    a separation given as an integer is the float of that integer.
    [int(np.sqrt(n))] is the integer square root and [int(a/b)] the
    truncated quotient, as they are for the counts a detector can have:
    the square root computed in binary64 first exceeds the integer square
    root at 4503599761588224 strings. *)

(** The result of Python arithmetic that may fail: a value, the
    [ZeroDivisionError] of a division by 0, or the [ValueError] of
    [int(nan)]. *)
Inductive numeric (A : Type) : Type :=
| Value (a : A)
| ZeroDivisionError
| NaNToInteger.

Arguments Value {A} a.
Arguments ZeroDivisionError {A}.
Arguments NaNToInteger {A}.

(** [int(np.sqrt(n))]: [np.sqrt] of a negative number is not a number. *)
Definition int_sqrt (n : Z) : numeric Z :=
  if (n <? 0)%Z then NaNToInteger else Value (Z.sqrt n).

(** [int(a/b)] for integers [a] and [b]. *)
Definition int_div (a b : Z) : numeric Z :=
  if (b =? 0)%Z then ZeroDivisionError else Value (Z.quot a b).

(** [range(n)] *)
Definition range (n : Z) : list nat := seq 0 (Z.to_nat n).

Section Layouts.
Context {num : Type} {SC : Scalar num} {FL : Floating num} {LM : Libm num}.

(** The float of a loop index. *)
Definition of_index (i : nat) : num := of_int (Z.of_nat i).

Definition IREXGrid_set_positions (number_of_strings : Z)
  (string_separation : num) (antennas_per_string : Z)
  (antenna_separation lowest_antenna : num) : numeric (list (list num)) :=
  match int_sqrt number_of_strings with
  | Value n_x =>
      match int_div number_of_strings n_x with
      | Value n_y =>
          let n_z := antennas_per_string in
          let dx := string_separation in
          let dy := string_separation in
          let dz := antenna_separation in
          Value
            (flat_map (fun i =>
               let x :=
                 s_add (s_add (f_div (s_mul (s_neg dx) (of_int n_x))
                                     (of_int 2))
                              (f_div dx (of_int 2)))
                       (s_mul dx (of_index i)) in
               flat_map (fun j =>
                 let y :=
                   s_add (s_add (f_div (s_mul (s_neg dy) (of_int n_y))
                                       (of_int 2))
                                (f_div dy (of_int 2)))
                         (s_mul dy (of_index j)) in
                 map (fun k =>
                   let z := s_add lowest_antenna (s_mul dz (of_index k)) in
                   [x; y; z])
                   (range n_z))
                 (range n_y))
               (range n_x))
      | ZeroDivisionError => ZeroDivisionError
      | NaNToInteger => NaNToInteger
      end
  | ZeroDivisionError => ZeroDivisionError
  | NaNToInteger => NaNToInteger
  end.

Definition IREXClusteredGrid_set_positions (number_of_stations : Z)
  (station_separation : num) (antennas_per_string : Z)
  (antenna_separation lowest_antenna : num) (strings_per_station : Z)
  (string_separation : num) : numeric (list (list num)) :=
  match int_sqrt number_of_stations with
  | Value n_x =>
      match int_div number_of_stations n_x with
      | Value n_y =>
          let n_z := antennas_per_string in
          let n_r := strings_per_station in
          let dx := station_separation in
          let dy := station_separation in
          let dz := antenna_separation in
          let dr := string_separation in
          Value
            (flat_map (fun i =>
               let x_st :=
                 s_add (s_add (f_div (s_mul (s_neg dx) (of_int n_x))
                                     (of_int 2))
                              (f_div dx (of_int 2)))
                       (s_mul dx (of_index i)) in
               flat_map (fun j =>
                 let y_st :=
                   s_add (s_add (f_div (s_mul (s_neg dy) (of_int n_y))
                                       (of_int 2))
                                (f_div dy (of_int 2)))
                         (s_mul dy (of_index j)) in
                 flat_map (fun L =>
                   let angle :=
                     f_div (s_mul (s_mul (of_int 2) np_pi) (of_index L))
                           (of_int n_r) in
                   let x := s_add x_st (s_mul dr (np_cos angle)) in
                   let y := s_add y_st (s_mul dr (np_sin angle)) in
                   map (fun k =>
                     let z := s_add lowest_antenna (s_mul dz (of_index k)) in
                     [x; y; z])
                     (range n_z))
                   (range n_r))
                 (range n_y))
               (range n_x))
      | ZeroDivisionError => ZeroDivisionError
      | NaNToInteger => NaNToInteger
      end
  | ZeroDivisionError => ZeroDivisionError
  | NaNToInteger => NaNToInteger
  end.

Definition IREXCoxeterClusters_set_positions (number_of_stations : Z)
  (station_separation : num) (antennas_per_string : Z)
  (antenna_separation lowest_antenna : num) (strings_per_station : Z)
  (string_separation : num) : numeric (list (list num)) :=
  match int_sqrt number_of_stations with
  | Value n_x =>
      match int_div number_of_stations n_x with
      | Value n_y =>
          let n_z := antennas_per_string in
          let n_r := strings_per_station in
          let dx := station_separation in
          let dy := station_separation in
          let dz := antenna_separation in
          let dr := string_separation in
          Value
            (flat_map (fun i =>
               let x_st :=
                 s_add (s_add (f_div (s_mul (s_neg dx) (of_int n_x))
                                     (of_int 2))
                              (f_div dx (of_int 2)))
                       (s_mul dx (of_index i)) in
               flat_map (fun j =>
                 let y_st :=
                   s_add (s_add (f_div (s_mul (s_neg dy) (of_int n_y))
                                       (of_int 2))
                                (f_div dy (of_int 2)))
                         (s_mul dy (of_index j)) in
                 flat_map (fun L =>
                   let xy :=
                     if (L =? 0)%nat then (x_st, y_st)
                     else
                       let angle :=
                         if (L =? 1)%nat then of_int 0
                         else
                           f_div (s_mul (s_mul (of_int 2) np_pi)
                                        (of_int (Z.of_nat L - 1)))
                                 (of_int (n_r - 1)) in
                       (s_add x_st (s_mul dr (np_cos angle)),
                        s_add y_st (s_mul dr (np_sin angle))) in
                   map (fun k =>
                     let z := s_add lowest_antenna (s_mul dz (of_index k)) in
                     [fst xy; snd xy; z])
                     (range n_z))
                   (range n_r))
                 (range n_y))
               (range n_x))
      | ZeroDivisionError => ZeroDivisionError
      | NaNToInteger => NaNToInteger
      end
  | ZeroDivisionError => ZeroDivisionError
  | NaNToInteger => NaNToInteger
  end.

(** The centre of string (or station) [i] of [n] along one axis of the
    grid, as the layouts compute it: [-d*n/2 + d/2 + d*i]. *)
Definition axis_centre (d : num) (n : Z) (i : nat) : num :=
  s_add (s_add (f_div (s_mul (s_neg d) (of_int n)) (of_int 2))
               (f_div d (of_int 2)))
        (s_mul d (of_index i)).

End Layouts.

(** The number of strings (or stations) a layout places for the number
    asked for. *)
Definition placed_count (n : Z) : Z := (Z.sqrt n * (n / Z.sqrt n))%Z.

(** ** Properties of the layouts *)

Lemma length_flat_map_const {A B : Type} (f : A -> list B) (c : nat)
  (l : list A) :
  (forall a, length (f a) = c) -> length (flat_map f l) = length l * c.
Proof.
  intros Hc. induction l as [|a l IH]; simpl; [reflexivity|].
  now rewrite length_app, Hc, IH.
Qed.

Lemma range_length (n : Z) : length (range n) = Z.to_nat n.
Proof. unfold range. apply length_seq. Qed.

Lemma in_range (n : Z) (i : nat) : In i (range n) <-> i < Z.to_nat n.
Proof. unfold range. rewrite in_seq. lia. Qed.

Lemma int_layout (n : Z) :
  (1 <= n)%Z ->
  int_sqrt n = Value (Z.sqrt n) /\
  int_div n (Z.sqrt n) = Value (n / Z.sqrt n)%Z /\
  (0 < Z.sqrt n)%Z.
Proof.
  intros Hn.
  assert (Hs : (0 < Z.sqrt n)%Z) by (apply Z.sqrt_pos; lia).
  unfold int_sqrt, int_div.
  assert (E1 : (n <? 0)%Z = false) by (apply Z.ltb_ge; lia).
  assert (E2 : (Z.sqrt n =? 0)%Z = false) by (apply Z.eqb_neq; lia).
  rewrite E1, E2. rewrite Z.quot_div_nonneg by lia. now repeat split.
Qed.

Lemma placed_count_bounds (n : Z) :
  (1 <= n)%Z ->
  (placed_count n <= n)%Z /\ (n - Z.sqrt n < placed_count n)%Z /\
  (forall m, (0 <= m)%Z -> n = (m * m)%Z -> placed_count n = n).
Proof.
  intros Hn. unfold placed_count.
  assert (Hs : (0 < Z.sqrt n)%Z) by (apply Z.sqrt_pos; lia).
  pose proof (Z.mul_div_le n (Z.sqrt n) Hs) as H1.
  pose proof (Z.mul_succ_div_gt n (Z.sqrt n) Hs) as H2.
  split; [exact H1|]. split; [lia|].
  intros m Hm ->. rewrite Z.sqrt_square by exact Hm.
  rewrite Z.div_mul by lia. reflexivity.
Qed.

Section LayoutFacts.
Context {num : Type} {SC : Scalar num} {FL : Floating num} {LM : Libm num}.

Lemma station_count (n n_r n_z : Z) :
  (1 <= n)%Z ->
  Z.to_nat (Z.sqrt n) *
  (Z.to_nat (n / Z.sqrt n) * (Z.to_nat n_r * Z.to_nat n_z)) =
  Z.to_nat (placed_count n) * Z.to_nat n_r * Z.to_nat n_z.
Proof.
  intros Hn. unfold placed_count.
  assert (Hs : (0 < Z.sqrt n)%Z) by (apply Z.sqrt_pos; lia).
  rewrite Z2Nat.inj_mul; [lia | lia |].
  apply Z.div_pos; lia.
Qed.

(** X19: for a number of strings of at least 1, [IREXGrid.set_positions]
    places [n_x * n_y * n_z] antennas, where [n_x] is the integer square
    root of the number asked for and [n_y] the integer quotient of the
    number by [n_x].  The grid has at most the number of strings asked
    for, fewer than [n_x] less, and exactly that number when it is a
    square. *)
Theorem grid_antenna_count (number_of_strings : Z) (string_separation : num)
  (antennas_per_string : Z) (antenna_separation lowest_antenna : num) :
  (1 <= number_of_strings)%Z ->
  (exists positions,
     IREXGrid_set_positions number_of_strings string_separation
       antennas_per_string antenna_separation lowest_antenna
     = Value positions /\
     length positions =
       Z.to_nat (placed_count number_of_strings) *
       Z.to_nat antennas_per_string /\
     Forall (fun pos => length pos = 3) positions) /\
  (placed_count number_of_strings <= number_of_strings)%Z /\
  (number_of_strings - Z.sqrt number_of_strings
     < placed_count number_of_strings)%Z /\
  (forall m, (0 <= m)%Z -> number_of_strings = (m * m)%Z ->
             placed_count number_of_strings = number_of_strings).
Proof.
  intros Hn. split; [|now apply placed_count_bounds].
  destruct (int_layout _ Hn) as (Hs & Hd & Hpos).
  unfold IREXGrid_set_positions. rewrite Hs, Hd.
  eexists. split; [reflexivity|]. split.
  - rewrite (length_flat_map_const _
               (Z.to_nat (number_of_strings / Z.sqrt number_of_strings) *
                Z.to_nat antennas_per_string)).
    + rewrite range_length. unfold placed_count.
      rewrite Z2Nat.inj_mul; [lia | lia |].
      apply Z.div_pos; lia.
    + intros i.
      rewrite (length_flat_map_const _ (Z.to_nat antennas_per_string)).
      * now rewrite range_length.
      * intros j. now rewrite length_map, range_length.
  - apply Forall_forall. intros pos Hin.
    apply in_flat_map in Hin as (i & _ & Hin).
    apply in_flat_map in Hin as (j & _ & Hin).
    apply in_map_iff in Hin as (k & <- & _). reflexivity.
Qed.

(** X20: the three layouts need at least one string (or station), whatever
    the other settings: for 0 their [set_positions] raises
    [ZeroDivisionError] (the square root is 0 and the number is divided by
    it), and for a negative number the conversion of the square root to an
    integer fails. *)
Theorem layouts_need_a_string (n : Z) (separation : num)
  (antennas_per_string : Z) (antenna_separation lowest_antenna : num)
  (strings_per_station : Z) (string_separation : num) :
  (n <= 0)%Z ->
  let failure : numeric (list (list num)) :=
    if (n =? 0)%Z then ZeroDivisionError else NaNToInteger in
  IREXGrid_set_positions n separation antennas_per_string
    antenna_separation lowest_antenna = failure /\
  IREXClusteredGrid_set_positions n separation antennas_per_string
    antenna_separation lowest_antenna strings_per_station string_separation
  = failure /\
  IREXCoxeterClusters_set_positions n separation antennas_per_string
    antenna_separation lowest_antenna strings_per_station string_separation
  = failure.
Proof.
  intros Hn failure. subst failure.
  unfold IREXGrid_set_positions, IREXClusteredGrid_set_positions,
    IREXCoxeterClusters_set_positions, int_sqrt.
  destruct (Z.eqb_spec n 0) as [->|Hz].
  - now repeat split.
  - assert (E : (n <? 0)%Z = true) by (apply Z.ltb_lt; lia).
    rewrite E. now repeat split.
Qed.

(** X22: for at least one station [IREXClusteredGrid.set_positions] places
    [n_x * n_y * n_r * n_z] antennas of three coordinates each: every
    station gets the number of strings per station asked for, whatever the
    number of stations placed; without strings or without antennas on a
    string the detector is empty. *)
Theorem clustered_antenna_count (number_of_stations : Z)
  (station_separation : num) (antennas_per_string : Z)
  (antenna_separation lowest_antenna : num) (strings_per_station : Z)
  (string_separation : num) :
  (1 <= number_of_stations)%Z ->
  exists positions,
    IREXClusteredGrid_set_positions number_of_stations station_separation
      antennas_per_string antenna_separation lowest_antenna
      strings_per_station string_separation
    = Value positions /\
    length positions =
      Z.to_nat (placed_count number_of_stations) *
      Z.to_nat strings_per_station * Z.to_nat antennas_per_string /\
    Forall (fun pos => length pos = 3) positions /\
    ((strings_per_station <= 0)%Z \/ (antennas_per_string <= 0)%Z ->
     positions = []).
Proof.
  intros Hn.
  destruct (int_layout _ Hn) as (Hs & Hd & Hpos).
  unfold IREXClusteredGrid_set_positions. rewrite Hs, Hd.
  eexists. split; [reflexivity|].
  match goal with
  | |- length ?l = _ /\ _ =>
      assert (Hlen : length l =
                Z.to_nat (placed_count number_of_stations) *
                Z.to_nat strings_per_station * Z.to_nat antennas_per_string)
  end.
  { rewrite <- station_count by exact Hn.
    rewrite (length_flat_map_const _
               (Z.to_nat (number_of_stations / Z.sqrt number_of_stations) *
                (Z.to_nat strings_per_station *
                 Z.to_nat antennas_per_string))).
    - now rewrite range_length.
    - intros i.
      rewrite (length_flat_map_const _
                 (Z.to_nat strings_per_station *
                  Z.to_nat antennas_per_string)).
      + now rewrite range_length.
      + intros j.
        rewrite (length_flat_map_const _ (Z.to_nat antennas_per_string)).
        * now rewrite range_length.
        * intros L. now rewrite length_map, range_length. }
  split; [exact Hlen|]. split.
  - apply Forall_forall. intros pos Hin.
    apply in_flat_map in Hin as (i & _ & Hin).
    apply in_flat_map in Hin as (j & _ & Hin).
    apply in_flat_map in Hin as (L & _ & Hin).
    apply in_map_iff in Hin as (k & <- & _). reflexivity.
  - intros Hempty. apply length_zero_iff_nil. rewrite Hlen.
    destruct Hempty as [H|H].
    + replace (Z.to_nat strings_per_station) with 0 by lia. lia.
    + replace (Z.to_nat antennas_per_string) with 0 by lia. lia.
Qed.

(** X23: for at least one station [IREXCoxeterClusters.set_positions]
    places [n_x * n_y * n_r * n_z] antennas, and with at least one string
    per station it puts the first string of every station at the centre
    of the station, [-d*n/2 + d/2 + d*i] along each axis, with an antenna
    at each of its heights. *)
Theorem coxeter_centre_string (number_of_stations : Z)
  (station_separation : num) (antennas_per_string : Z)
  (antenna_separation lowest_antenna : num) (strings_per_station : Z)
  (string_separation : num) :
  (1 <= number_of_stations)%Z ->
  (1 <= strings_per_station)%Z ->
  exists positions,
    IREXCoxeterClusters_set_positions number_of_stations station_separation
      antennas_per_string antenna_separation lowest_antenna
      strings_per_station string_separation
    = Value positions /\
    length positions =
      Z.to_nat (placed_count number_of_stations) *
      Z.to_nat strings_per_station * Z.to_nat antennas_per_string /\
    (forall i j k,
       i < Z.to_nat (Z.sqrt number_of_stations) ->
       j < Z.to_nat (number_of_stations / Z.sqrt number_of_stations) ->
       k < Z.to_nat antennas_per_string ->
       In [axis_centre station_separation (Z.sqrt number_of_stations) i;
           axis_centre station_separation
             (number_of_stations / Z.sqrt number_of_stations) j;
           s_add lowest_antenna (s_mul antenna_separation (of_index k))]
          positions).
Proof.
  intros Hn Hr.
  destruct (int_layout _ Hn) as (Hs & Hd & Hpos).
  unfold IREXCoxeterClusters_set_positions. rewrite Hs, Hd.
  eexists. split; [reflexivity|]. split.
  - rewrite <- station_count by exact Hn.
    rewrite (length_flat_map_const _
               (Z.to_nat (number_of_stations / Z.sqrt number_of_stations) *
                (Z.to_nat strings_per_station *
                 Z.to_nat antennas_per_string))).
    + now rewrite range_length.
    + intros i.
      rewrite (length_flat_map_const _
                 (Z.to_nat strings_per_station *
                  Z.to_nat antennas_per_string)).
      * now rewrite range_length.
      * intros j.
        rewrite (length_flat_map_const _ (Z.to_nat antennas_per_string)).
        -- now rewrite range_length.
        -- intros L. now rewrite length_map, range_length.
  - intros i j k Hi Hj Hk.
    apply in_flat_map. exists i. split; [now apply in_range|].
    apply in_flat_map. exists j. split; [now apply in_range|].
    apply in_flat_map. exists 0%nat. split; [apply in_range; lia|].
    apply in_map_iff. exists k. split; [reflexivity | now apply in_range].
Qed.

End LayoutFacts.

Lemma grid_antenna_count_witness :
  (exists positions,
     IREXGrid_set_positions 5 500%float 2 40%float (-200)%float
     = Value positions /\
     length positions = 8%nat) /\
  placed_count 5 = 4%Z.
Proof.
  destruct (grid_antenna_count 5 500%float 2 40%float (-200)%float
              ltac:(lia)) as [(positions & E & L & _) _].
  split; [|reflexivity].
  exists positions. split; [exact E|]. rewrite L. reflexivity.
Defined.

Lemma layouts_need_a_string_witness :
  IREXGrid_set_positions 0 500%float 2 40%float (-200)%float
  = ZeroDivisionError /\
  IREXCoxeterClusters_set_positions (-4) 500%R 2 40%R (-200)%R 4 25%R
  = NaNToInteger.
Proof.
  split.
  - exact (proj1 (layouts_need_a_string (LM := libm_bench) 0 500%float 2
                    40%float (-200)%float 4 25%float ltac:(lia))).
  - exact (proj2 (proj2 (layouts_need_a_string (-4) 500%R 2 40%R (-200)%R
                          4 25%R ltac:(lia)))).
Defined.

Lemma clustered_antenna_count_witness :
  exists positions,
    IREXClusteredGrid_set_positions 1 500%R 2 40%R (-200)%R 4 50%R
    = Value positions /\
    length positions = 8%nat.
Proof.
  destruct (clustered_antenna_count 1 500%R 2 40%R (-200)%R 4 50%R
              ltac:(lia)) as (positions & E & L & _).
  exists positions. split; [exact E|]. rewrite L. reflexivity.
Defined.

Lemma coxeter_centre_string_witness :
  exists positions,
    IREXCoxeterClusters_set_positions 1 500%R 2 40%R (-200)%R 4 25%R
    = Value positions /\
    In [axis_centre 500%R 1 0; axis_centre 500%R 1 0;
        (-200 + 40 * IZR (Z.of_nat 1))%R]
       positions.
Proof.
  destruct (coxeter_centre_string 1 500%R 2 40%R (-200)%R 4 25%R
              ltac:(lia) ltac:(lia)) as (positions & E & _ & C).
  exists positions. split; [exact E|].
  apply (C 0%nat 0%nat 1%nat); vm_compute; lia.
Defined.

(* ================================================================== *)
(** * [IREXAntenna]

    The dipole of [antenna.py].  Its constructor computes the arguments it
    hands to the constructor of [Antenna] and then the coefficients of its
    filter; the record below holds them.  Vectors are triples, as the
    default orientation and the vectors drawn by [np.random.rand(3)] are.
    The random draws are a sequence [rand]: [rand n] is the vector the
    [n]-th call of [np.random.rand(3)] gives.  The constructor of [Antenna]
    is taken to keep the frequency range it is given. *)

Module IREXAntenna.

Section Dipole.
Context {num : Type} {SC : Scalar num} {FL : Floating num} {LM : Libm num}.

Definition vec3 : Type := (num * num * num)%type.

Definition to_list (v : vec3) : list num :=
  let '(x, y, z) := v in [x; y; z].

(** [np.zeros(3)], and the tuple [(0,0,0)] it is compared with. *)
Definition zeros : vec3 := (of_int 0, of_int 0, of_int 0).

(** [np.cross(a, b)] *)
Definition np_cross (a b : vec3) : vec3 :=
  let '(a1, a2, a3) := a in
  let '(b1, b2, b3) := b in
  (s_sub (s_mul a2 b3) (s_mul a3 b2),
   s_sub (s_mul a3 b1) (s_mul a1 b3),
   s_sub (s_mul a1 b2) (s_mul a2 b1)).

(** [np.array_equal(a, b)] *)
Definition array_equal (a b : vec3) : bool :=
  let '(a1, a2, a3) := a in
  let '(b1, b2, b3) := b in
  f_eqb a1 b1 && f_eqb a2 b2 && f_eqb a3 b3.

(** [a / b] for Python numbers. *)
Definition float_div (a b : num) : numeric num :=
  if f_eqb b (of_int 0) then ZeroDivisionError else Value (f_div a b).

(** The loop

      while np.array_equal(np.cross(orientation, tmp_vector), (0,0,0)):
          tmp_vector = np.random.rand(3)

    after [drawn] draws; it gives the vector it stops at and the number of
    draws made, or nothing when the fuel does not reach its end. *)
Fixpoint ortho_loop (orientation : vec3) (rand : nat -> vec3)
  (fuel drawn : nat) (tmp_vector : vec3) : option (vec3 * nat) :=
  match fuel with
  | O => None
  | S fuel' =>
      if array_equal (np_cross orientation tmp_vector) zeros
      then ortho_loop orientation rand fuel' (S drawn) (rand drawn)
      else Some (tmp_vector, drawn)
  end.

(** The effective height the constructor settles on: the one given, or
    [3e8 / center_frequency / 2]. *)
Definition height_of (center_frequency : num) (effective_height : option num)
  : numeric num :=
  match effective_height with
  | None =>
      match float_div (of_int 300000000) center_frequency with
      | Value q => float_div q (of_int 2)
      | ZeroDivisionError => ZeroDivisionError
      | NaNToInteger => NaNToInteger
      end
  | Some h => Value h
  end.

(** [2*np.pi*f] *)
Definition angular (f : num) : num := s_mul (s_mul (of_int 2) np_pi) f.

Context {Coeffs : Type}.

(** What [__init__] leaves: its own [effective_height] and
    [filter_coeffs], and the arguments of [super().__init__]. *)
Record t : Type := mk {
  effective_height : num;
  position : vec3;
  z_axis : vec3;
  x_axis : vec3;
  antenna_factor : num;
  temperature : num;
  freq_range : num * num;
  resistance : num;
  noisy : bool;
  filter_coeffs : Coeffs
}.

(** How a call of the constructor ends. *)
Inductive ended : Type :=
| Returns (self : t)
| RaisesZeroDivisionError
| RaisesValueError.

(** [IceModel.temperature], which is not part of [antenna.py]. *)
Variable IceModel_temperature : num -> num.

(** [scipy.signal.butter(1, (low, high), btype='bandpass', analog=True)]:
    the coefficients, or nothing when it raises [ValueError], as it does
    for a critical frequency that is not positive. *)
Variable scipy_signal_butter : num -> num -> option Coeffs.

(** [IREXAntenna.__init__]: how the call ends and how many random vectors
    it has drawn by then; [None] when the fuel does not reach the end of
    the loop. *)
Definition init (fuel : nat) (rand : nat -> vec3) (position : vec3)
  (center_frequency bandwidth resistance : num) (orientation : vec3)
  (effective_height : option num) (noisy : bool) : option (ended * nat) :=
  match height_of center_frequency effective_height with
  | Value self_effective_height =>
      let f_low := s_sub center_frequency (f_div bandwidth (of_int 2)) in
      let f_high := s_add center_frequency (f_div bandwidth (of_int 2)) in
      let tmp_vector := zeros in
      match ortho_loop orientation rand fuel 0 tmp_vector with
      | None => None
      | Some (tmp_vector, draws) =>
          let ortho := np_cross orientation tmp_vector in
          match float_div (of_int 1) self_effective_height with
          | Value factor =>
              match scipy_signal_butter (angular f_low) (angular f_high) with
              | Some coeffs =>
                  Some (Returns (mk self_effective_height position
                                    orientation ortho factor
                                    (IceModel_temperature (snd position))
                                    (f_low, f_high) resistance noisy coeffs),
                        draws)
              | None => Some (RaisesValueError, draws)
              end
          | ZeroDivisionError => Some (RaisesZeroDivisionError, draws)
          | NaNToInteger => Some (RaisesZeroDivisionError, draws)
          end
      end
  | ZeroDivisionError => Some (RaisesZeroDivisionError, 0)
  | NaNToInteger => Some (RaisesZeroDivisionError, 0)
  end.

End Dipole.

End IREXAntenna.

(** The constructor is called with a height, or with a centre frequency a
    height can be computed from. *)
Definition height_given (center_frequency : R) (effective_height : option R)
  : Prop :=
  match effective_height with
  | None => center_frequency <> 0%R
  | Some _ => True
  end.

(** ** Properties of [IREXAntenna] *)

Section DipoleFacts.
Context {num : Type} {SC : Scalar num} {FL : Floating num} {LM : Libm num}.


Lemma ortho_loop_parallel (orientation : IREXAntenna.vec3)
  (rand : nat -> IREXAntenna.vec3) :
  (forall m, IREXAntenna.array_equal
               (IREXAntenna.np_cross orientation (rand m))
               IREXAntenna.zeros = true) ->
  forall fuel drawn tmp_vector,
    IREXAntenna.array_equal (IREXAntenna.np_cross orientation tmp_vector)
      IREXAntenna.zeros = true ->
    IREXAntenna.ortho_loop orientation rand fuel drawn tmp_vector = None.
Proof.
  intros Hall. induction fuel as [|fuel IH]; intros drawn tmp Htmp;
    [reflexivity|].
  cbn [IREXAntenna.ortho_loop]. rewrite Htmp. apply IH, Hall.
Qed.


End DipoleFacts.

Open Scope R_scope.

Lemma array_equal_true (a b : IREXAntenna.vec3 (num := R)) :
  IREXAntenna.array_equal a b = true <-> a = b.
Proof.
  destruct a as [[a1 a2] a3], b as [[b1 b2] b3].
  unfold IREXAntenna.array_equal. cbn [f_eqb R_Floating]. unfold Reqb.
  destruct (Req_dec_T a1 b1) as [E1|E1];
    [destruct (Req_dec_T a2 b2) as [E2|E2];
      [destruct (Req_dec_T a3 b3) as [E3|E3]|]|];
    cbn [andb]; split; intros H; try discriminate; try congruence.
Qed.

Lemma np_cross_zero_l (b : IREXAntenna.vec3 (num := R)) :
  IREXAntenna.np_cross (0, 0, 0) b = (0, 0, 0).
Proof.
  destruct b as [[b1 b2] b3]. unfold IREXAntenna.np_cross.
  cbn [s_sub s_mul R_Scalar]. f_equal; [f_equal|]; ring.
Qed.

Lemma float_div_value (a b : R) :
  b <> 0 -> IREXAntenna.float_div a b = Value (a / b).
Proof.
  intros Hb. unfold IREXAntenna.float_div. cbn [f_eqb f_div of_int R_Floating].
  unfold Reqb. destruct (Req_dec_T b 0) as [E|_]; [contradiction | reflexivity].
Qed.

(** X25: for the zero vector as orientation the constructor never returns:
    no draw has a cross product with it other than zero, so the loop goes
    on whatever is drawn and however long it runs.  Only the missing
    centre frequency is noticed before: without a height and with a centre
    frequency of 0 the constructor raises [ZeroDivisionError], whatever
    the orientation, and draws nothing. *)
Theorem zero_orientation_never_returns {Coeffs : Type}
  (IceModel_temperature : R -> R)
  (scipy_signal_butter : R -> R -> option Coeffs)
  (rand : nat -> IREXAntenna.vec3) (position : IREXAntenna.vec3)
  (center_frequency bandwidth resistance : R)
  (effective_height : option R) (noisy : bool) (fuel : nat) :
  (height_given center_frequency effective_height ->
   IREXAntenna.init IceModel_temperature scipy_signal_butter fuel rand
     position center_frequency bandwidth resistance (0, 0, 0)
     effective_height noisy
   = None) /\
  (forall orientation,
     center_frequency = 0 ->
     IREXAntenna.init IceModel_temperature scipy_signal_butter fuel rand
       position center_frequency bandwidth resistance orientation None noisy
     = Some (IREXAntenna.RaisesZeroDivisionError, 0%nat)).
Proof.
  split.
  - intros Hgiven.
    assert (Hloop :
      IREXAntenna.ortho_loop (0, 0, 0) rand fuel 0 IREXAntenna.zeros = None).
    { apply ortho_loop_parallel.
      - intros m. apply array_equal_true. apply np_cross_zero_l.
      - apply array_equal_true. apply np_cross_zero_l. }
    unfold IREXAntenna.init, IREXAntenna.height_of.
    destruct effective_height as [h|].
    + cbv zeta. now rewrite Hloop.
    + simpl in Hgiven.
      cbn [of_int R_Floating].
      rewrite (float_div_value _ center_frequency Hgiven).
      assert (H2 : 2 <> 0) by lra.
      rewrite (float_div_value _ 2 H2).
      cbv zeta. now rewrite Hloop.
  - intros orientation ->.
    unfold IREXAntenna.init, IREXAntenna.height_of, IREXAntenna.float_div.
    cbn [f_eqb of_int R_Floating]. unfold Reqb.
    destruct (Req_dec_T 0 0) as [_|E]; [reflexivity | now elim E].
Qed.

Close Scope R_scope.

Open Scope float_scope.




Close Scope float_scope.

Lemma zero_orientation_never_returns_witness :
  IREXAntenna.init (fun _ => 250%R) (fun lo hi => Some (lo, hi)) 1000
    (fun _ => (1, 0, 0)%R) (0, 0, -100)%R 250e6%R 300e6%R 100%R (0, 0, 0)%R
    None true = None.
Proof.
  refine (proj1 (zero_orientation_never_returns (fun _ => 250%R)
                   (fun lo hi => Some (lo, hi)) (fun _ => (1, 0, 0)%R)
                   (0, 0, -100)%R 250e6%R 300e6%R 100%R None true 1000) _).
  simpl. lra.
Defined.


(* ================================================================== *)
(** * [IREXDetector.build_antennas]

    The antennas a detector builds at its positions.  The antenna systems
    are made by the constructor above, with the name and the orientation
    [build_antennas] fixes and the clip bound the constructor has as its
    default; the second loop then names each of them and sets its
    orientation, which is kept beside the antenna system here. *)

From Stdlib Require DecimalString DecimalNat.

Section Detector.
Context {FE : Frontends R}.

Open Scope R_scope.

(** [str(i)] for an index [i]. *)
Definition str (i : nat) : string :=
  DecimalString.NilEmpty.string_of_uint (Nat.to_uint i).

(** [ant.name = n] *)
Definition set_name (self : IREXAntennaSystem R) (n : string)
  : IREXAntennaSystem R :=
  mkSystem n (position self) (amplification self)
    (amplifier_clipping self) (trigger_threshold self)
    (time_over_threshold self) (envelope_method self)
    (antenna_signals self) (antenna_noise self) (_all_waveforms self).

(** [enumerate(l)], counting from [i]. *)
Fixpoint enumerate_from {A : Type} (i : nat) (l : list A) : list (nat * A) :=
  match l with
  | [] => []
  | a :: l' => (i, a) :: enumerate_from (S i) l'
  end.

Definition enumerate {A : Type} (l : list A) : list (nat * A) :=
  enumerate_from 0 l.

(** The antenna system [build_antennas] makes at [pos], before it is
    named; [noise] is the noise state of a new antenna. *)
Definition unnamed_antenna (noise : list R -> NoiseState)
  (trigger_threshold time_over_threshold amplification : R)
  (envelope_method : string) (pos : list R) : IREXAntennaSystem R :=
  new_system "IREX antenna" pos trigger_threshold time_over_threshold
    amplification 3 envelope_method (noise pos).

Definition build_antennas (antenna_positions : list (list R))
  (noise : list R -> NoiseState)
  (trigger_threshold time_over_threshold amplification : R)
  (naming_scheme : nat -> IREXAntennaSystem R -> string)
  (orientation_scheme : nat -> IREXAntennaSystem R -> list R * list R)
  (envelope_method : string)
  : list (IREXAntennaSystem R * (list R * list R)) :=
  let antennas :=
    map (unnamed_antenna noise trigger_threshold time_over_threshold
           amplification envelope_method) antenna_positions in
  map (fun '(i, ant) =>
         let ant := set_name ant (naming_scheme i ant) in
         (ant, orientation_scheme i ant))
      (enumerate antennas).

(** The default of [naming_scheme]. *)
Definition default_naming_scheme (i : nat) (ant : IREXAntennaSystem R)
  : string :=
  "ant_" ++ str i.

(** The default of [orientation_scheme]. *)
Definition default_orientation_scheme (i : nat) (ant : IREXAntennaSystem R)
  : list R * list R :=
  ([0; 0; 1], [1; 0; 0]).

Close Scope R_scope.

(** ** Properties of [build_antennas] *)

Lemma nth_error_enumerate_from {A : Type} (l : list A) :
  forall s i,
    nth_error (enumerate_from s l) i
    = option_map (fun a => (s + i, a)) (nth_error l i).
Proof.
  induction l as [|a l IH]; intros s [|i]; simpl; try reflexivity.
  - now rewrite Nat.add_0_r.
  - rewrite IH. now replace (S s + i) with (s + S i) by lia.
Qed.


Lemma build_antennas_nth (antenna_positions : list (list R))
  (noise : list R -> NoiseState)
  (trigger_threshold time_over_threshold amplification : R)
  (naming_scheme : nat -> IREXAntennaSystem R -> string)
  (orientation_scheme : nat -> IREXAntennaSystem R -> list R * list R)
  (envelope_method : string) (i : nat) :
  nth_error (build_antennas antenna_positions noise trigger_threshold
               time_over_threshold amplification naming_scheme
               orientation_scheme envelope_method) i
  = option_map
      (fun pos =>
         let unnamed :=
           unnamed_antenna noise trigger_threshold time_over_threshold
             amplification envelope_method pos in
         let ant := set_name unnamed (naming_scheme i unnamed) in
         (ant, orientation_scheme i ant))
      (nth_error antenna_positions i).
Proof.
  unfold build_antennas, enumerate. cbv zeta.
  rewrite nth_error_map, nth_error_enumerate_from, nth_error_map.
  destruct (nth_error antenna_positions i); reflexivity.
Qed.


Lemma NoDup_map_injective {A B : Type} (f : A -> B) (l : list A) :
  (forall x y, f x = f y -> x = y) -> NoDup l -> NoDup (map f l).
Proof.
  intros Hinj Hl. induction Hl as [|a l Hnot Hl IH]; simpl; constructor.
  - intros Hin. apply in_map_iff in Hin as (y & E & Hy).
    apply Hinj in E. subst. contradiction.
  - exact IH.
Qed.

Lemma str_injective (i j : nat) : str i = str j -> i = j.
Proof.
  unfold str. intros E.
  apply (f_equal DecimalString.NilEmpty.uint_of_string) in E.
  rewrite !DecimalString.NilEmpty.usu in E. injection E as E.
  apply (f_equal Nat.of_uint) in E.
  now rewrite !DecimalNat.Unsigned.of_to in E.
Qed.


(** X28: with the default naming scheme the antennas of a detector are
    named "ant_0", "ant_1", ... in the order of the positions, and no two
    antennas of the detector share a name. *)
Theorem default_names_distinct (antenna_positions : list (list R))
  (noise : list R -> NoiseState) (threshold over_threshold gain : R)
  (orientation_scheme : nat -> IREXAntennaSystem R -> list R * list R)
  (method : string) :
  let names :=
    map (fun built => name (fst built))
      (build_antennas antenna_positions noise threshold over_threshold gain
         default_naming_scheme orientation_scheme method) in
  names = map (fun i => ("ant_" ++ str i)%string) (seq 0 (length antenna_positions)) /\
  NoDup names.
Proof.
  intros names.
  assert (E : names =
    map (fun i => ("ant_" ++ str i)%string) (seq 0 (length antenna_positions))).
  { apply nth_error_ext. intros i. unfold names.
    rewrite nth_error_map, build_antennas_nth, nth_error_map.
    destruct (nth_error antenna_positions i) as [pos|] eqn:Hp.
    - assert (Hi : i < length antenna_positions)
        by (apply nth_error_Some; congruence).
      rewrite (nth_error_nth' (seq 0 (length antenna_positions)) 0%nat);
        [|now rewrite length_seq].
      rewrite seq_nth by exact Hi. reflexivity.
    - apply nth_error_None in Hp. cbn [option_map].
      symmetry. replace (nth_error (seq 0 (length antenna_positions)) i)
        with (@None nat); [reflexivity|].
      symmetry. apply nth_error_None. now rewrite length_seq. }
  split; [exact E|]. rewrite E.
  apply NoDup_map_injective; [|apply seq_NoDup].
  intros i j Hij. apply str_injective.
  cbn [append] in Hij. congruence.
Qed.

End Detector.


Lemma default_names_distinct_witness :
  NoDup ["ant_0"; "ant_1"]%string.
Proof.
  exact (proj2 (default_names_distinct (FE := R_bench)
                  [[0; 0; -200]; [0; 0; -160]]%R (fun _ => 0) 1%R 0%R 100%R
                  default_orientation_scheme "hilbert")).
Defined.

